(** * PyAlgoTrade, Binance connector: order lifecycle and message translation

    A shallow embedding of

    - [pyalgotrade/binance/livebroker.py]  (class [LiveBroker]),
    - [pyalgotrade/binance/wsclient.py]    (classes [BinanceMatch] and
      [OrderStateChange]),
    - [pyalgotrade/binance/netclients.py]  (function [toBookMessages]),

    followed by the properties of the order lifecycle reconciler and of the
    message translator.

    Python floats are IEEE 754 binary64 numbers: they are modelled by Rocq's
    primitive floats, whose operations round the same way.  Python
    dictionaries are [gmap]s.  Order objects are shared between the caller
    and the broker's registry, so they live in an object store addressed by
    references.  A method that can raise returns in a state-and-exception
    monad: the mutations made before the [raise] stay, as in Python. *)

From Stdlib Require Import ZArith Ascii String List.
From Stdlib Require Import PrimFloat Uint63 SpecFloat FloatOps.
From stdpp Require Import base option gmap strings list.

Set Warnings "-inexact-float".
Set Default Proof Using "Type".

Local Open Scope string_scope.
Local Open Scope Z_scope.
Local Open Scope list_scope.

(* ===================================================================== *)
(** * Python values, exceptions and results *)
(* ===================================================================== *)

(** The exceptions the modelled code raises.  The text of a message built
    with [%] keeps its constant part only.  [RemoteError] is whatever a
    collaborator (the venue gateway, the stream consumer) raised;
    [UnboundReference] is the model's own: a reference that names no object,
    which Python cannot build. *)
Inductive exn : Type :=
  | Exception (msg : string)
  | AssertionError
  | KeyError (key : string)
  | AttributeError (name : string)
  | ValueError (msg : string)
  | TypeError (msg : string)
  | RemoteError (msg : string)
  | UnboundReference.

Inductive result (A : Type) : Type :=
  | Ok (a : A)
  | Raise (e : exn).
Arguments Ok {A} a.
Arguments Raise {A} e.

#[export] Instance result_ret : MRet result := λ A a, Ok a.
#[export] Instance result_bind : MBind result := λ A B k r,
  match r with
  | Ok a => k a
  | Raise e => Raise e
  end.

Definition is_ok {A} (r : result A) : bool :=
  match r with Ok _ => true | Raise _ => false end.

(** A scalar of a decoded JSON message. *)
Inductive jval : Type :=
  | JNull
  | JBool (b : bool)
  | JInt (z : Z)
  | JFloat (f : float)
  | JStr (s : string).

(** A decoded JSON object: a Python [dict] with string keys. *)
Abbreviation pydict := (gmap string jval).

(** [d[k]]: raises [KeyError] when the key is absent. *)
Definition getitem (d : pydict) (k : string) : result jval :=
  match d !! k with
  | Some v => Ok v
  | None => Raise (KeyError k)
  end.

(** [d.k] on an [AttrDict]: raises [AttributeError] when the key is
    absent. *)
Definition getattr (d : pydict) (k : string) : result jval :=
  match d !! k with
  | Some v => Ok v
  | None => Raise (AttributeError k)
  end.

(** [d.get(k, dflt)] *)
Definition dict_get (d : pydict) (k : string) (dflt : jval) : jval :=
  default dflt (d !! k).

(** [v == 'lit'] for a string literal: only a [str] equals a [str]. *)
Definition eq_str (v : jval) (lit : string) : bool :=
  match v with
  | JStr s => bool_decide (s = lit)
  | _ => false
  end.

(** [v is None] *)
Definition is_None (v : jval) : bool :=
  match v with JNull => true | _ => false end.

(** A naive [datetime]: microseconds on the time line. *)
Definition datetime : Type := Z.

(** The builtins and library calls of the Python runtime the code relies on.
    They are not part of the repository: the development is parametric in
    them. *)
Record Runtime : Type := mkRuntime {
  (** [float(v)] *)
  py_float : jval → result float;
  (** [int(v)] *)
  py_int : jval → result Z;
  (** [round(x, ndigits)] *)
  py_round : float → Z → float;
  (** [json.loads(s)] of ujson *)
  json_loads : string → result pydict;
  (** [datetime.fromtimestamp(v)] *)
  fromtimestamp : jval → result datetime;
  (** [(d - EPOCH).total_seconds()] *)
  total_seconds_since_EPOCH : datetime → float;
  (** [datetime.strptime(v, "%Y-%m-%dT%H:%M:%S.%fZ")] *)
  strptime : jval → result datetime;
  (** [datetime.now()] *)
  datetime_now : datetime;
}.

(* ===================================================================== *)
(** * The order class of [pyalgotrade.broker] *)
(* ===================================================================== *)

(** Venue-assigned order ids are strings; a value of another type is equal
    to no key of the registry. *)
Abbreviation OrderId := string.

(** Modelled from the spec: the enumerations of [pyalgotrade.broker] are not
    under src/.  The states are those of the spec's state machine (4.3), the
    event types those of its ORDER_EVENT (6); the actions and the order
    types are the ones livebroker.py names. *)
Module State.
Inductive t : Type :=
  | INITIAL | SUBMITTED | ACCEPTED | PARTIALLY_FILLED
  | FILLED | CANCELED | REJECTED.

#[export] Instance eq_dec : EqDecision t.
Proof. solve_decision. Defined.
End State.
Export (hints) State.

Module EventType.
Inductive t : Type :=
  | SUBMITTED | ACCEPTED | CANCELED | PARTIALLY_FILLED | FILLED.

#[export] Instance eq_dec : EqDecision t.
Proof. solve_decision. Defined.
End EventType.
Export (hints) EventType.

Module Action.
Inductive t : Type := BUY | BUY_TO_COVER | SELL | SELL_SHORT.
End Action.

Module OrderType.
Inductive t : Type := MARKET | LIMIT | STOP | STOP_LIMIT.

#[export] Instance eq_dec : EqDecision t.
Proof. solve_decision. Defined.
End OrderType.
Export (hints) OrderType.

(** The Python class of an order object, as [type(order)] returns it.
    livebroker.py names [broker.MarketOrder] and [broker.LimitOrder]; stop
    and stop-limit orders are the two other kinds it knows of. *)
Inductive OrderClass : Type :=
  | MarketOrder | LimitOrder | StopOrder | StopLimitOrder.

#[export] Instance OrderClass_eq_dec : EqDecision OrderClass.
Proof. solve_decision. Defined.

(** Modelled from the spec: [broker.OrderExecutionInfo] is not under src/.
    Spec, data model: "Execution Info: {price, size, fee, timestamp}".  The
    price is optional because [OrderStateChange.oei] passes a price that is
    [None] when the message has none. *)
Record OrderExecutionInfo : Type := mkOEI {
  oei_price : option float;
  oei_quantity : float;
  oei_commission : float;
  oei_dateTime : datetime;
}.

(** Modelled from the spec: [broker.Order] and its subclasses are not under
    src/.  Spec, data model: "Order: {id (assigned on submission, absent
    before), side, type (Limit|Market), price (Limit only), quantity, filled
    quantity, fee accrued, state, execution history}"; the two flags are the
    ones [submitOrder] overrides. *)
Record Order : Type := mkOrder {
  o_class : OrderClass;
  o_id : option OrderId;
  o_action : Action.t;
  o_limitPrice : float;
  o_quantity : float;
  o_filled : float;
  o_commissions : float;
  o_state : State.t;
  o_executions : list OrderExecutionInfo;
  o_allOrNone : bool;
  o_goodTillCanceled : bool;
  o_submitDateTime : option datetime;
}.

(** Field updates. *)
Definition with_state (s : State.t) (o : Order) : Order :=
  mkOrder (o_class o) (o_id o) (o_action o) (o_limitPrice o) (o_quantity o)
    (o_filled o) (o_commissions o) s (o_executions o) (o_allOrNone o)
    (o_goodTillCanceled o) (o_submitDateTime o).

Definition with_allOrNone (b : bool) (o : Order) : Order :=
  mkOrder (o_class o) (o_id o) (o_action o) (o_limitPrice o) (o_quantity o)
    (o_filled o) (o_commissions o) (o_state o) (o_executions o) b
    (o_goodTillCanceled o) (o_submitDateTime o).

Definition with_goodTillCanceled (b : bool) (o : Order) : Order :=
  mkOrder (o_class o) (o_id o) (o_action o) (o_limitPrice o) (o_quantity o)
    (o_filled o) (o_commissions o) (o_state o) (o_executions o)
    (o_allOrNone o) b (o_submitDateTime o).

Definition with_submitted (i : option OrderId) (d : datetime) (o : Order) : Order :=
  mkOrder (o_class o) i (o_action o) (o_limitPrice o) (o_quantity o)
    (o_filled o) (o_commissions o) (o_state o) (o_executions o)
    (o_allOrNone o) (o_goodTillCanceled o) (Some d).

(** Modelled from the spec: what an appended execution does to the fields
    (data model: "filled quantity ... equals the sum of execution sizes",
    "fee accrued", "execution history ... appended, never mutated or
    removed"). *)
Definition with_execution (e : OrderExecutionInfo) (o : Order) : Order :=
  mkOrder (o_class o) (o_id o) (o_action o) (o_limitPrice o) (o_quantity o)
    (o_filled o + oei_quantity e)%float
    (o_commissions o + oei_commission e)%float
    (o_state o) (o_executions o ++ [e]) (o_allOrNone o)
    (o_goodTillCanceled o) (o_submitDateTime o).

(** Modelled from the spec: the readers of [broker.Order], which is not
    under src/.  The type of an order is the one of its class (spec 4.3:
    "type ∈ {Limit, Market} (Stop and Stop-Limit are rejected ...)"); a buy
    is a BUY or a BUY_TO_COVER (spec 4.3: "buy-to-cover → buy"). *)
Definition getType (o : Order) : OrderType.t :=
  match o_class o with
  | MarketOrder => OrderType.MARKET
  | LimitOrder => OrderType.LIMIT
  | StopOrder => OrderType.STOP
  | StopLimitOrder => OrderType.STOP_LIMIT
  end.

Definition isBuy (o : Order) : bool :=
  match o_action o with
  | Action.BUY | Action.BUY_TO_COVER => true
  | _ => false
  end.

Definition isInitial (o : Order) : bool := bool_decide (o_state o = State.INITIAL).
Definition isFilled (o : Order) : bool := bool_decide (o_state o = State.FILLED).

(** Modelled from the spec: glossary, "Terminal state: Filled, Canceled, or
    Rejected" and "Active order: an order in any non-terminal state". *)
Definition terminal (s : State.t) : bool :=
  match s with
  | State.FILLED | State.CANCELED | State.REJECTED => true
  | _ => false
  end.

Definition isActive (o : Order) : bool := negb (terminal (o_state o)).

(** Modelled from the spec: the transitions of [Order.switchState], which is
    not under src/.  Spec 4.3: "Initial → Submitted → Accepted →
    (PartiallyFilled)* → {Filled | Canceled | Rejected}. Exactly one terminal
    state is reached; no transitions occur after a terminal state." *)
Definition valid_transition (s s' : State.t) : bool :=
  match s, s' with
  | State.INITIAL, State.SUBMITTED => true
  | State.SUBMITTED, State.ACCEPTED => true
  | (State.ACCEPTED | State.PARTIALLY_FILLED),
    (State.PARTIALLY_FILLED | State.FILLED | State.CANCELED | State.REJECTED) => true
  | _, _ => false
  end.

(** Modelled from the spec: an order is fully filled when nothing of its
    quantity remains (spec, scenario B: fills of 0.4 and 0.6 on quantity 1.0
    end in Filled). *)
Definition fully_filled (o : Order) : bool :=
  (o_quantity o - o_filled o =? 0)%float.

(* ===================================================================== *)
(** * The broker, the object store and the observable trace *)
(* ===================================================================== *)

(** A reference to an [Order] object. *)
Abbreviation loc := positive.

(** The instrument [feed.getDefaultInstrument()] returns; its class is not
    under src/.  [cc1cc2()] gives the asset and the cash currency. *)
Record Symbol : Type := mkSymbol {
  cc1 : string;
  cc2 : string;
}.

Definition cc1cc2 (s : Symbol) : string * string := (cc1 s, cc2 s).

(** [orderbook.Bid] and [orderbook.Ask] *)
Inductive Side : Type := Bid | Ask.

(** The time-in-force flags of [BinanceRest]. *)
Inductive Flag : Type := GTC | IOC | FOK | GTT | POST_ONLY.

(** The fields of a [LiveBroker] the modelled methods read or write, and
    [heap]: the [Order] objects that the registry and the callers refer
    to. *)
Record Broker : Type := mkBroker {
  stop : bool;
  cash : float;
  shares : list (Symbol * float);
  activeOrders : gmap OrderId loc;
  symbol : Symbol;
  heap : gmap loc Order;
}.

Definition with_stop (b : bool) (s : Broker) : Broker :=
  mkBroker b (cash s) (shares s) (activeOrders s) (symbol s) (heap s).
Definition with_cash (c : float) (s : Broker) : Broker :=
  mkBroker (stop s) c (shares s) (activeOrders s) (symbol s) (heap s).
Definition with_shares (sh : list (Symbol * float)) (s : Broker) : Broker :=
  mkBroker (stop s) (cash s) sh (activeOrders s) (symbol s) (heap s).
Definition with_activeOrders (a : gmap OrderId loc) (s : Broker) : Broker :=
  mkBroker (stop s) (cash s) (shares s) a (symbol s) (heap s).
Definition with_heap (h : gmap loc Order) (s : Broker) : Broker :=
  mkBroker (stop s) (cash s) (shares s) (activeOrders s) (symbol s) h.

(** [*l = o], [self.__activeOrders[i] = l] and [del self.__activeOrders[i]] *)
Definition set_order (l : loc) (o : Order) (s : Broker) : Broker :=
  with_heap (<[l := o]> (heap s)) s.
Definition set_active (i : OrderId) (l : loc) (s : Broker) : Broker :=
  with_activeOrders (<[i := l]> (activeOrders s)) s.
Definition del_active (i : OrderId) (s : Broker) : Broker :=
  with_activeOrders (delete i (activeOrders s)) s.

(** [broker.OrderEvent(order, eventType, eventInfo)] *)
Record OrderEvent : Type := mkOrderEvent {
  ev_order : loc;
  ev_type : option EventType.t;
  ev_info : option OrderExecutionInfo;
}.

(** A call to a collaborator: the venue gateway [self.__httpClient] or the
    stream consumer [self.__tradeMonitor]. *)
Inductive Call : Type :=
  | CBalances
  | COpenOrders (sym : Symbol)
  | CLimitOrder (side : Side) (price size : float) (sym : Symbol) (flags : list Flag)
  | CMarketOrder (side : Side) (size : float) (sym : Symbol)
  | CCancelOrder (order : loc)
  | CMonitorStart.

(** What the outside sees of a run: calls to collaborators and order events
    handed to the observers. *)
Inductive Action : Type :=
  | ACall (c : Call)
  | AEmit (e : OrderEvent).

(** Each action is recorded with the broker as it is at that instant: what
    the collaborator or the observer called then can see. *)
Definition Trace : Type := list (Action * Broker).

Record World : Type := mkWorld {
  broker : Broker;
  trace : Trace;
}.

(** The collaborators' answers.  An answer may depend on everything that
    happened before the call. *)
Record Collaborators : Type := {
  (** [httpClient.balances()]: free amount by asset *)
  gw_balances : Trace → result (gmap string float);
  (** [httpClient.OpenOrders(symbol=...)]: fresh order objects *)
  gw_OpenOrders : Trace → Symbol → result (list Order);
  (** [httpClient.limitorder(side, price, size, symbol, flags=...)]: the new
      id, [None] for a JSON null *)
  gw_limitorder : Trace → Side → float → float → Symbol → list Flag → result (option OrderId);
  (** [httpClient.marketorder(side, size, symbol)] *)
  gw_marketorder : Trace → Side → float → Symbol → result (option OrderId);
  (** [httpClient.cancelOrder(order)] *)
  gw_cancelOrder : Trace → Order → result unit;
  (** [tradeMonitor.start()] *)
  monitor_start : Trace → result unit;
}.

(** ** The state-and-exception monad *)

Definition M (A : Type) : Type := World → result A * World.

#[export] Instance M_ret : MRet M := λ A a w, (Ok a, w).
#[export] Instance M_bind : MBind M := λ A B k m w,
  match m w with
  | (Ok a, w') => k a w'
  | (Raise e, w') => (Raise e, w')
  end.

Definition raise {A} (e : exn) : M A := λ w, (Raise e, w).
Definition lift {A} (r : result A) : M A := λ w, (r, w).
Definition gets {A} (f : Broker → A) : M A := λ w, (Ok (f (broker w)), w).
Definition modify (f : Broker → Broker) : M unit :=
  λ w, (Ok tt, mkWorld (f (broker w)) (trace w)).
Definition skip : M unit := mret tt.

(** Python's [assert] *)
Definition assert (b : bool) : M unit :=
  if b then skip else raise AssertionError.

(** The world once an action is recorded, with the broker as it is now. *)
Definition logged (a : Action) (w : World) : World :=
  mkWorld (broker w) (trace w ++ [(a, broker w)]).

Definition record (a : Action) : M unit := λ w, (Ok tt, logged a w).

(** Call a collaborator: the answer may depend on what happened before the
    call, and the call is recorded. *)
Definition call {A} (c : Call) (answer : Trace → result A) : M A :=
  λ w, (answer (trace w), logged (ACall c) w).

(** [for x in xs: body(x)] *)
Fixpoint for_each {A} (xs : list A) (body : A → M unit) : M unit :=
  match xs with
  | [] => skip
  | x :: xs' => body x ;; for_each xs' body
  end.

(** ** Order objects in the store *)

Definition deref (l : loc) : M Order := λ w,
  match heap (broker w) !! l with
  | Some o => (Ok o, w)
  | None => (Raise UnboundReference, w)
  end.

Definition assign (l : loc) (o : Order) : M unit := modify (set_order l o).

(** A new object. *)
Definition alloc (o : Order) : M loc := λ w,
  let l := fresh (dom (heap (broker w))) in
  (Ok l, mkWorld (set_order l o (broker w)) (trace w)).

(** A method that only reads the object. *)
Definition getter {A} (f : Order → A) (l : loc) : M A :=
  o ← deref l; mret (f o).

(** A method that overwrites fields of the object. *)
Definition setter (f : Order → Order) (l : loc) : M unit :=
  o ← deref l; assign l (f o).

(** Modelled from the spec: [Order.switchState] is not under src/.  Spec 7:
    a transition the state machine does not have is "raised immediately,
    never silently absorbed". *)
Definition switchState (l : loc) (newState : State.t) : M unit :=
  o ← deref l;
  if valid_transition (o_state o) newState
  then assign l (with_state newState o)
  else raise (Exception "Invalid order state transition").

(** Modelled from the spec: [Order.addExecutionInfo] is not under src/.  Spec,
    data model: the execution is appended to the history, the filled
    quantity grows by its size ("it equals the sum of execution sizes") and
    the fee accrues; scenario B: the order is then Filled when fully filled
    and PartiallyFilled otherwise. *)
Definition addExecutionInfo (l : loc) (oei : OrderExecutionInfo) : M unit :=
  o ← deref l;
  let o' := with_execution oei o in
  assign l o' ;;
  if fully_filled o'
  then switchState l State.FILLED
  else switchState l State.PARTIALLY_FILLED.

(** Modelled from the spec: [setSubmitted], [setAllOrNone] and
    [setGoodTillCanceled] of [broker.Order] are not under src/; the spec says
    of them only that the returned id "is assigned" and that the flags are
    overridden. *)
Definition setSubmitted (l : loc) (orderId : option OrderId) (dateTime : datetime) : M unit :=
  setter (with_submitted orderId dateTime) l.
Definition setAllOrNone (l : loc) (b : bool) : M unit := setter (with_allOrNone b) l.
Definition setGoodTillCanceled (l : loc) (b : bool) : M unit :=
  setter (with_goodTillCanceled b) l.

(** Modelled from the spec: [Broker.notifyOrderEvent] of the base class is not
    under src/.  It hands the event to the subscribers; what they do is
    outside the connector, so the model records the emission. *)
Definition notifyOrderEvent (e : OrderEvent) : M unit := record (AEmit e).

(* ===================================================================== *)
(** * The connector *)
(* ===================================================================== *)

(** [VENUE] of netclients.py *)
Definition VENUE : string := "binance".

(** [k in keys] and [registry.get(k)] for a key read from a message: order ids
    are strings, so a value of another type is in no registry. *)
Definition key_in (k : jval) (keys : gset OrderId) : bool :=
  match k with
  | JStr s => bool_decide (s ∈ keys)
  | _ => false
  end.

Definition registry_get (a : gmap OrderId loc) (k : jval) : option loc :=
  match k with
  | JStr s => a !! s
  | _ => None
  end.

(** [registry.get(order.getId())], where the id may be [None] *)
Definition registry_get_id (a : gmap OrderId loc) (k : option OrderId) : option loc :=
  match k with
  | Some s => a !! s
  | None => None
  end.

(** What [OrderStateChange.__parse] stores in the object. *)
Record Parsed : Type := mkParsed {
  p_id : jval;
  p_price : option float;
  p_new_state : option State.t;
  p_event_type : option EventType.t;
}.

(** Modelled from the spec: the book messages of [pyalgotrade.orderbook],
    which is not under src/.  Spec, data model: "Delta: {sequence: integer,
    side: Bid|Ask, price, size, kind: Assign|Increase|Decrease}"; the venue
    and the symbol are the other two of the six arguments netclients.py
    builds each message with. *)
Inductive DeltaKind : Type := Assign | Increase | Decrease.

Record BookMessage : Type := mkBookMessage {
  bm_kind : DeltaKind;
  bm_rts : Z;
  bm_venue : string;
  bm_symbol : string;
  bm_price : float;
  bm_size : float;
  bm_side : Side;
}.

(** The argument of [toBookMessages]: a [dict], or anything else, which is
    given to [json.loads]. *)
Inductive BookInput : Type :=
  | Undecoded (text : string)
  | Decoded (d : pydict).

Section Translator.

Context (rt : Runtime).

(** ** netclients.py *)

Definition flmath (n : float) : float := py_round rt n 12.

(** [{ 'buy': Bid, 'sell': Ask }.get(v, None)] *)
Definition side_of (v : jval) : option Side :=
  if eq_str v "buy" then Some Bid
  else if eq_str v "sell" then Some Ask
  else None.

(** [cbase = binance_json; if type(cbase) != dict: cbase = json.loads(cbase)] *)
Definition decode (binance_json : BookInput) : result pydict :=
  match binance_json with
  | Decoded d => mret d
  | Undecoded text => json_loads rt text
  end.

Definition toBookMessages (binance_json : BookInput) (symbol : string)
    : result (list BookMessage) :=
  cbase ← decode binance_json;
  cbt ← getitem cbase "type";
  if eq_str cbt "received" then mret [] else
  market_done ← (if eq_str cbt "done"
                 then order_type ← getitem cbase "order_type";
                      mret (eq_str order_type "market")
                 else mret false);
  if (market_done : bool) then mret [] else
  side ← getitem cbase "side";
  match side_of side with
  | None => Raise (ValueError "Unknown side")
  | Some side =>
      match cbase !! "price" with
      | None => mret []
      | Some price =>
          let build (mtype : DeltaKind) (size : jval) : result (list BookMessage) :=
            sequence ← getitem cbase "sequence";
            rts ← py_int rt sequence;
            p ← py_float rt price;
            sz ← py_float rt size;
            mret [mkBookMessage mtype rts VENUE symbol p sz side] in
          if eq_str cbt "done" then
            size ← getitem cbase "remaining_size"; build Decrease size
          else if eq_str cbt "open" then
            size ← getitem cbase "remaining_size"; build Increase size
          else if eq_str cbt "match" then
            size ← getitem cbase "size"; build Decrease size
          else if eq_str cbt "change" then
            if eq_str price "null" then mret [] else
            old_size ← getitem cbase "old_size";
            old ← py_float rt old_size;
            new_size ← getitem cbase "new_size";
            new ← py_float rt new_size;
            build Decrease (JFloat (flmath (old - new)))
          else Raise (ValueError "Unknown binance message")
      end
  end.

End Translator.

Section Connector.

Context (rt : Runtime) (env : Collaborators).

(** ** wsclient.py: [BinanceMatch] *)

(** [BinanceMatch.datetime] *)
Definition match_datetime (j : pydict) : result datetime :=
  T ← getitem j "T";
  fromtimestamp rt T.

(** [BinanceMatch.time] *)
Definition match_time (j : pydict) : result float :=
  d ← match_datetime j;
  mret (total_seconds_since_EPOCH rt d).

(** [BinanceMatch.price] *)
Definition match_price (j : pydict) : result float :=
  p ← getitem j "p";
  py_float rt p.

(** [BinanceMatch.size] *)
Definition match_size (j : pydict) : result float :=
  q ← getitem j "q";
  py_float rt q.

(** [BinanceMatch.involves]: the tuple of both ids is built first, then the
    first of them found in [oidlist] is returned, [None] when neither is. *)
Definition involves (j : pydict) (oidlist : gset OrderId) : result jval :=
  a ← getitem j "a";
  b ← getitem j "b";
  if key_in a oidlist then mret a
  else if key_in b oidlist then mret b
  else mret JNull.

(** ** wsclient.py: [OrderStateChange] *)

(** [OrderStateChange.__parse].  The object caches what it computes; the
    function is deterministic, so reading a cached field and parsing again
    give the same value.  (The change is taken as it arrives: nothing read
    its properties before [onChangeEvent] does.) *)
Definition parse (j : pydict) : result Parsed :=
  id ← getitem j "order_id";
  mtype ← getitem j "type";
  se ← (if eq_str mtype "received"
        then mret (Some State.ACCEPTED, Some EventType.ACCEPTED)
        else if eq_str mtype "done"
        then reason ← getitem j "reason";
             if eq_str reason "filled" && eq_str (dict_get j "remaining_size" JNull) "0"
             then mret (Some State.FILLED, Some EventType.FILLED)
             else mret (Some State.CANCELED, Some EventType.CANCELED)
        else mret (None, None));
  let price := dict_get j "price" JNull in
  p ← (if is_None price then mret None else f ← py_float rt price; mret (Some f));
  mret (mkParsed id p se.1 se.2).

(** The properties [id], [new_state] and [event_type]. *)
Definition change_id (j : pydict) : result jval := p ← parse j; mret (p_id p).
Definition change_new_state (j : pydict) : result (option State.t) :=
  p ← parse j; mret (p_new_state p).
Definition change_event_type (j : pydict) : result (option EventType.t) :=
  p ← parse j; mret (p_event_type p).

(** [OrderStateChange.oei(order)] *)
Definition change_oei (j : pydict) (order : Order) : result (option OrderExecutionInfo) :=
  if negb (eq_str (dict_get j "reason" (JStr "")) "filled") then mret None
  else
    t ← getitem j "time";
    dt ← strptime rt t;
    let ounfilled := (o_quantity order - o_filled order)%float in
    sizeleft ← py_float rt (dict_get j "remaining_size" (JFloat 0.0));
    p ← parse j;
    mret (Some (mkOEI (p_price p) (ounfilled - sizeleft) 0 dt)).

(** ** livebroker.py: the collaborators *)

Definition httpClient_balances : M (gmap string float) :=
  call CBalances (gw_balances env).

Fixpoint alloc_all (os : list Order) : M (list loc) :=
  match os with
  | [] => mret []
  | o :: os' => l ← alloc o; ls ← alloc_all os'; mret (l :: ls)
  end.

Definition httpClient_OpenOrders (sym : Symbol) : M (list loc) :=
  os ← call (COpenOrders sym) (λ t, gw_OpenOrders env t sym);
  alloc_all os.

Definition httpClient_limitorder (side : Side) (price size : float) (sym : Symbol)
    (flags : list Flag) : M (option OrderId) :=
  call (CLimitOrder side price size sym flags)
       (λ t, gw_limitorder env t side price size sym flags).

Definition httpClient_marketorder (side : Side) (size : float) (sym : Symbol)
    : M (option OrderId) :=
  call (CMarketOrder side size sym) (λ t, gw_marketorder env t side size sym).

Definition httpClient_cancelOrder (order : loc) : M unit :=
  o ← deref order;
  call (CCancelOrder order) (λ t, gw_cancelOrder env t o).

Definition tradeMonitor_start : M unit := call CMonitorStart (monitor_start env).

(** ** livebroker.py: [LiveBroker] *)

Definition _registerOrder (order : loc) : M unit :=
  id ← getter o_id order;
  a ← gets activeOrders;
  assert (negb (bool_decide (is_Some (registry_get_id a id)))) ;;
  match id with
  | None => raise AssertionError
  | Some i => modify (set_active i order)
  end.

Definition _unregisterOrder (order : loc) : M unit :=
  id ← getter o_id order;
  a ← gets activeOrders;
  assert (bool_decide (is_Some (registry_get_id a id))) ;;
  match id with
  | None => raise AssertionError
  | Some i => modify (del_active i)
  end.

(** The balances are floats already, so [float] changes none of them and
    turns the default [0] into [0.0]. *)
Definition refreshAccountBalance : M unit :=
  modify (with_stop true) ;;
  balance ← httpClient_balances;
  sym ← gets symbol;
  let '(c1, c2) := cc1cc2 sym in
  let usd := default 0%float (balance !! c2) in
  modify (with_cash (py_round rt usd 2)) ;;
  let asset := default 0%float (balance !! c1) in
  modify (with_shares [(sym, asset)]) ;;
  modify (with_stop false).

Definition refreshOpenOrders : M unit :=
  modify (with_stop true) ;;
  sym ← gets symbol;
  openOrders ← httpClient_OpenOrders sym;
  for_each openOrders _registerOrder ;;
  modify (with_stop false).

Definition _startTradeMonitor : M unit :=
  modify (with_stop true) ;;
  tradeMonitor_start ;;
  modify (with_stop false).

(** [LiveBroker.__fees] *)
Definition fees (order : Order) (j : pydict) : result float :=
  if bool_decide (o_class order = LimitOrder) then mret 0%float
  else
    price ← match_price j;
    size ← match_size j;
    mret (0.0025 * price * size)%float.

Definition _onUserTrade (j : pydict) : M bool :=
  a ← gets activeOrders;
  oid ← lift (involves j (dom a));
  a ← gets activeOrders;
  match registry_get a oid with
  | Some order =>
      refreshAccountBalance ;;
      o ← deref order;
      fee ← lift (fees o j);
      time ← lift (match_time j);
      dt ← lift (fromtimestamp rt (JFloat time));
      price ← lift (match_price j);
      size ← lift (match_size j);
      let oei := mkOEI (Some price) size fee dt in
      addExecutionInfo order oei ;;
      active ← getter isActive order;
      (if negb (active : bool) then _unregisterOrder order else skip) ;;
      filled ← getter isFilled order;
      let eventType :=
        if (filled : bool) then EventType.FILLED else EventType.PARTIALLY_FILLED in
      notifyOrderEvent (mkOrderEvent order (Some eventType) (Some oei)) ;;
      mret true
  | None => mret false
  end.

(** [_CBOrderOEI]; a [BinanceOrder] is an [AttrDict]. *)
Definition _CBOrderOEI (cborder : pydict) : result OrderExecutionInfo :=
  done_at ← getattr cborder "done_at";
  dt ← strptime rt done_at;
  price ← getattr cborder "price";
  cbprice ← py_float rt price;
  filled_size ← getattr cborder "filled_size";
  cbfilled ← py_float rt filled_size;
  fill_fees ← getattr cborder "fill_fees";
  cbfees ← py_float rt fill_fees;
  mret (mkOEI (Some cbprice) cbfilled cbfees dt).

Definition applyUpdate (order : loc) (cborder : option pydict) : M unit :=
  let canceled : M unit :=
    switchState order State.CANCELED ;;
    notifyOrderEvent (mkOrderEvent order (Some EventType.CANCELED) None) in
  match cborder with
  | None => _unregisterOrder order ;; canceled
  | Some cb =>
      status ← lift (getattr cb "status");
      if eq_str status "rejected" then _unregisterOrder order ;; canceled
      else if eq_str status "open" then
        switchState order State.ACCEPTED ;;
        notifyOrderEvent (mkOrderEvent order (Some EventType.ACCEPTED) None)
      else if eq_str status "done" then
        done_reason ← lift (getattr cb "done_reason");
        if eq_str done_reason "canceled" then
          filled_size ← lift (getattr cb "filled_size");
          (if negb (eq_str filled_size "0")
           then oei ← lift (_CBOrderOEI cb); addExecutionInfo order oei
           else skip) ;;
          canceled
        else if eq_str done_reason "filled" then
          oei ← lift (_CBOrderOEI cb);
          addExecutionInfo order oei ;;
          notifyOrderEvent (mkOrderEvent order (Some EventType.FILLED) None)
        else raise (Exception "Unknown done reason")
      else raise (Exception "Unknown order status")
  end.

(** [start]; the base class's [start] does nothing the model sees. *)
Definition start : M unit :=
  refreshAccountBalance ;;
  refreshOpenOrders ;;
  _startTradeMonitor.

Definition eof : M bool := gets stop.

Definition onChangeEvent (j : pydict) : M unit :=
  order_id ← lift (change_id j);
  a ← gets activeOrders;
  match registry_get a order_id with
  | None => skip
  | Some order =>
      newstate ← lift (change_new_state j);
      match newstate with
      | None => skip
      | Some newstate =>
          o ← deref order;
          oei ← lift (change_oei j o);
          oei ← match oei with
                | Some e =>
                    addExecutionInfo order e ;;
                    st ← getter o_state order;
                    if negb (bool_decide (newstate = st))
                    then event_type ← lift (change_event_type j);
                         notifyOrderEvent (mkOrderEvent order event_type (Some e)) ;;
                         mret None
                    else mret (Some e)
                | None => mret None
                end;
          st ← getter o_state order;
          (if negb (bool_decide (newstate = st))
           then switchState order newstate else skip) ;;
          event_type ← lift (change_event_type j);
          notifyOrderEvent (mkOrderEvent order event_type oei) ;;
          active ← getter isActive order;
          if negb (active : bool)
          then _unregisterOrder order ;; refreshAccountBalance
          else skip
      end
  end.

Definition submitOrder (order : loc) : M unit :=
  initial ← getter isInitial order;
  if (initial : bool) then
    setAllOrNone order false ;;
    setGoodTillCanceled order true ;;
    buy ← getter isBuy order;
    let side := if (buy : bool) then Bid else Ask in
    size ← getter o_quantity order;
    ty ← getter getType order;
    sym ← gets symbol;
    newOrderId ←
      (if bool_decide (ty = OrderType.LIMIT) then
         price ← getter o_limitPrice order;
         httpClient_limitorder side price size sym [GTC]
       else if bool_decide (ty = OrderType.MARKET) then
         httpClient_marketorder side size sym
       else raise (Exception (VENUE +:+ " only does LIMIT and MARKET orders")));
    setSubmitted order newOrderId (datetime_now rt) ;;
    _registerOrder order ;;
    switchState order State.SUBMITTED ;;
    notifyOrderEvent (mkOrderEvent order (Some EventType.SUBMITTED) None)
  else raise (Exception "The order was already processed").

Definition cancelOrder (order : loc) : M unit :=
  id ← getter o_id order;
  a ← gets activeOrders;
  match registry_get_id a id with
  | None => raise (Exception "The order is not active anymore")
  | Some activeOrder =>
      filled ← getter isFilled activeOrder;
      if (filled : bool)
      then raise (Exception "Can't cancel order that has already been filled")
      else httpClient_cancelOrder order
  end.

End Connector.

(* ===================================================================== *)
(** * A concrete runtime and concrete collaborators, for the examples *)
(* ===================================================================== *)

Module CPython.

(** The value of a decimal digit. *)
Definition digit (c : ascii) : option Z :=
  let n := Z.of_nat (nat_of_ascii c) in
  if (48 <=? n) && (n <=? 57) then Some (n - 48) else None.

(** The number a string of digits writes in base ten, with its length. *)
Fixpoint digits (s : string) (acc : Z) (n : nat) : option (Z * nat) :=
  match s with
  | EmptyString => Some (acc, n)
  | String c s' =>
      match digit c with
      | Some d => digits s' (10 * acc + d) (S n)
      | None => None
      end
  end.

(** The text before the first dot, and the text after it if there is one. *)
Fixpoint split_dot (s : string) : string * option string :=
  match s with
  | EmptyString => (EmptyString, None)
  | String c s' =>
      if Ascii.eqb c "."%char then (EmptyString, Some s')
      else let '(a, b) := split_dot s' in (String c a, b)
  end.

(** A non-negative integer below 2^63, as a float. *)
Definition float_of_Z (z : Z) : float := PrimFloat.of_uint63 (Uint63.of_Z z).

(** [float(s)] on a plain unsigned decimal numeral [ddd], [ddd.ddd], [.ddd]
    or [ddd.]: the quotient of the integer the digits write by a power of
    ten.  Both are exact floats up to fifteen digits, and then the rounded
    quotient is the float nearest to the numeral, which is what CPython
    returns.  Other strings raise [ValueError] here. *)
Definition float_of_string (s : string) : result float :=
  let '(ip, fp) := split_dot s in
  let fp := default EmptyString fp in
  match digits (ip +:+ fp) 0 0 with
  | Some (m, S _) =>
      Ok (float_of_Z m / float_of_Z (10 ^ Z.of_nat (String.length fp)))%float
  | _ => Raise (ValueError "could not convert string to float")
  end.

Definition py_float (v : jval) : result float :=
  match v with
  | JFloat f => Ok f
  | JInt z => if z <? 0 then Ok (- float_of_Z (- z))%float else Ok (float_of_Z z)
  | JBool b => Ok (if b then 1 else 0)%float
  | JStr s => float_of_string s
  | JNull => Raise (TypeError "float() argument must be a string or a number")
  end.

(** The integer part of a float, towards zero; [None] for an infinity or
    a NaN. *)
Definition trunc (f : float) : option Z :=
  match FloatOps.Prim2SF f with
  | SpecFloat.S754_zero _ => Some 0
  | SpecFloat.S754_finite neg m e =>
      let a := if (0 <=? e) then Z.pos m * 2 ^ e else Z.pos m / 2 ^ (- e) in
      Some (if neg then - a else a)
  | _ => None
  end.

(** [int(v)]; on a string, plain unsigned digits only. *)
Definition py_int (v : jval) : result Z :=
  match v with
  | JInt z => Ok z
  | JBool b => Ok (if b then 1 else 0)
  | JFloat f =>
      match trunc f with
      | Some z => Ok z
      | None => Raise (ValueError "cannot convert float to integer")
      end
  | JStr s =>
      match digits s 0 0 with
      | Some (z, S _) => Ok z
      | _ => Raise (ValueError "invalid literal for int() with base 10")
      end
  | JNull => Raise (TypeError "int() argument must be a string or a number")
  end.

(** [round(x, n)] for [0 <= x] and [0 <= n]: the nearest integer to
    [x * 10^n], found by adding and removing 2^52, over [10^n].  It is
    CPython's result when [x * 10^n] is an integer below 2^51. *)
Definition py_round (x : float) (n : Z) : float :=
  let p := float_of_Z (10 ^ n) in
  ((x * p + 4503599627370496 - 4503599627370496) / p)%float.

(** Days from 1970-01-01 to a date of the proleptic Gregorian calendar. *)
Definition days_from_civil (y m d : Z) : Z :=
  let y := if m <=? 2 then y - 1 else y in
  let era := y / 400 in
  let yoe := y - era * 400 in
  let doy := (153 * (if 2 <? m then m - 3 else m + 9) + 2) / 5 + d - 1 in
  let doe := yoe * 365 + yoe / 4 - yoe / 100 + doy in
  era * 146097 + doe - 719468.

(** The digits of [s] from position [i], [n] of them. *)
Definition field (s : string) (i n : nat) : option Z :=
  match digits (String.substring i n s) 0 0 with
  | Some (z, k) => if bool_decide (k = n) then Some z else None
  | None => None
  end.

(** [datetime.strptime(s, "%Y-%m-%dT%H:%M:%S.%fZ")] on the full form
    [YYYY-MM-DDTHH:MM:SS.ffffffZ]; the ranges of the fields are not
    checked. *)
Definition strptime (v : jval) : result datetime :=
  match v with
  | JStr s =>
      let r :=
        y ← field s 0 4; mo ← field s 5 2; d ← field s 8 2;
        h ← field s 11 2; mi ← field s 14 2; sec ← field s 17 2;
        us ← field s 20 6;
        guard (String.length s = 27%nat) ;;
        guard (String.substring 4 1 s = "-" ∧ String.substring 7 1 s = "-"
               ∧ String.substring 10 1 s = "T" ∧ String.substring 13 1 s = ":"
               ∧ String.substring 16 1 s = ":" ∧ String.substring 19 1 s = "."
               ∧ String.substring 26 1 s = "Z") ;;
        Some ((((days_from_civil y mo d * 24 + h) * 60 + mi) * 60 + sec) * 1000000 + us)
      in
      match r with
      | Some t => Ok t
      | None => Raise (ValueError "time data does not match format")
      end
  | _ => Raise (TypeError "strptime() argument 1 must be str")
  end.

(** [datetime.fromtimestamp(v)], the local time zone being UTC. *)
Definition fromtimestamp (v : jval) : result datetime :=
  match v with
  | JInt z => Ok (z * 1000000)
  | JFloat f =>
      match trunc (f * 1000000)%float with
      | Some z => Ok z
      | None => Raise (ValueError "cannot convert float to timestamp")
      end
  | _ => Raise (TypeError "a float is required")
  end.

Definition total_seconds_since_EPOCH (d : datetime) : float :=
  (float_of_Z d / 1000000)%float.

(** The examples pass decoded messages: this runtime decodes nothing. *)
Definition json_loads (s : string) : result pydict :=
  Raise (ValueError "No JSON object could be decoded").

(** The runtime, at the instant [now]. *)
Definition runtime (now : datetime) : Runtime :=
  mkRuntime py_float py_int py_round json_loads fromtimestamp
    total_seconds_since_EPOCH strptime now.

End CPython.

(** Collaborators that answer the same whatever happened before: the
    balances, the open orders, the id of a placed order, the answer to a
    cancel request and the start of the stream consumer. *)
Definition steady (balances : result (gmap string float))
    (openOrders : result (list Order)) (newOrderId : result (option OrderId))
    (cancel : result unit) (monitor : result unit) : Collaborators := {|
  gw_balances := λ _, balances;
  gw_OpenOrders := λ _ _, openOrders;
  gw_limitorder := λ _ _ _ _ _ _, newOrderId;
  gw_marketorder := λ _ _ _ _, newOrderId;
  gw_cancelOrder := λ _ _, cancel;
  monitor_start := λ _, monitor;
|}.

Module Examples.

Definition btcusd : Symbol := mkSymbol "BTC" "USD".

Definition rt : Runtime := CPython.runtime 1500000000000000.

Definition balances : gmap string float :=
  {[ "BTC" := 1%float; "USD" := 1000%float ]}.

(** A venue that answers every request; a placed order gets the id [id]. *)
Definition venue (id : OrderId) : Collaborators :=
  steady (Ok balances) (Ok []) (Ok (Some id)) (Ok tt) (Ok tt).


(** The same venue when it accepts no order. *)
Definition venue_refusing_orders : Collaborators :=
  steady (Ok balances) (Ok []) (Raise (RemoteError "400 Bad Request"))
    (Ok tt) (Ok tt).

(** BUY 1.0 @ 100, all-or-none and not good-till-canceled as the caller
    built it, not submitted yet. *)
Definition new_order (cls : OrderClass) : Order :=
  mkOrder cls None Action.BUY 100 1 0 0 State.INITIAL [] true false None.

(** BUY 1.0 @ 100 with id 7, acknowledged by the venue. *)
Definition open_order (cls : OrderClass) : Order :=
  mkOrder cls (Some "7") Action.BUY 100 1 0 0 State.ACCEPTED [] false true
    (Some 1400000000000000).

Definition world (registry : gmap OrderId loc) (objects : gmap loc Order) : World :=
  mkWorld (mkBroker false 0 [] registry btcusd objects) [].

(** Nothing registered; the caller holds a new limit order. *)
Definition before_submit : World :=
  world ∅ {[ 1%positive := new_order LimitOrder ]}.

(** Order 7 is registered. *)
Definition trading (cls : OrderClass) : World :=
  world {[ "7" := 1%positive ]} {[ 1%positive := open_order cls ]}.

(** Order 7 is registered and the caller holds a new limit order. *)
Definition trading_more : World :=
  world {[ "7" := 1%positive ]}
    {[ 1%positive := open_order LimitOrder; 2%positive := new_order LimitOrder ]}.

(** A trade of [q] @ 100 between the orders 7 and 9. *)
Definition fill (q : string) : pydict :=
  {[ "a" := JStr "7"; "b" := JStr "9"; "p" := JStr "100"; "q" := JStr q;
     "T" := JInt 1500000000 ]}.

(** A trade between two orders of other accounts. *)
Definition foreign_fill : pydict :=
  {[ "a" := JStr "3"; "b" := JStr "9"; "p" := JStr "100"; "q" := JStr "0.4";
     "T" := JInt 1500000000 ]}.

(** Order 7 is done: it was filled down to 0.5, the rest is gone. *)
Definition done_partly_filled : pydict :=
  {[ "order_id" := JStr "7"; "type" := JStr "done"; "reason" := JStr "filled";
     "remaining_size" := JStr "0.5"; "price" := JStr "100";
     "time" := JStr "2014-11-14T06:39:55.189376Z" ]}.

(** The execution [OrderStateChange.oei] builds from that message. *)
Definition done_partly_filled_oei : OrderExecutionInfo :=
  mkOEI (Some 100%float) 0.5%float 0%float 1415947195189376.

(** The same fact as the REST endpoint tells it: order 7 is done, canceled
    after 0.5 of it was filled. *)
Definition canceled_partly_filled : pydict :=
  {[ "status" := JStr "done"; "done_reason" := JStr "canceled";
     "filled_size" := JStr "0.5"; "price" := JStr "100"; "fill_fees" := JStr "0";
     "done_at" := JStr "2014-11-14T06:39:55.189376Z" ]}.

(** An open limit order enters the book. *)
Definition open_message : pydict :=
  {[ "type" := JStr "open"; "side" := JStr "buy"; "price" := JStr "100";
     "remaining_size" := JStr "2"; "sequence" := JInt 501 ]}.

(** A message without a price whose side is not a side. *)
Definition sideless_message : pydict :=
  {[ "type" := JStr "open"; "side" := JStr "hold" ]}.

(** A message without a price whose type is no type of the feed. *)
Definition heartbeat_message : pydict :=
  {[ "type" := JStr "heartbeat"; "side" := JStr "buy" ]}.

End Examples.

(** The order events of a trace, in the order of their emission, and the
    calls to collaborators, in the order they were made. *)
Definition emitted (t : Trace) : list OrderEvent :=
  omap (λ x, match x.1 with AEmit e => Some e | ACall _ => None end) t.

Definition calls (t : Trace) : list Call :=
  omap (λ x, match x.1 with ACall c => Some c | AEmit _ => None end) t.

(** The state of the order of each emitted event, as the observers find it
    when the event reaches them. *)
Definition states_at_emission (t : Trace) : list (option State.t) :=
  omap (λ x, match x.1 with
             | AEmit e => Some (o_state <$> heap x.2 !! ev_order e)
             | ACall _ => None
             end) t.

(** ** What the properties speak of *)

(** The side [submitOrder] asks for, the request it sends for an order of a
    supported type, and the gateway's answer to that request. *)
Definition side_of_order (o : Order) : Side := if isBuy o then Bid else Ask.

Definition place_order_call (sym : Symbol) (o : Order) : option Call :=
  match getType o with
  | OrderType.LIMIT =>
      Some (CLimitOrder (side_of_order o) (o_limitPrice o) (o_quantity o) sym [GTC])
  | OrderType.MARKET => Some (CMarketOrder (side_of_order o) (o_quantity o) sym)
  | _ => None
  end.

Definition place_order_answer (env : Collaborators) (t : Trace) (sym : Symbol)
    (o : Order) : result (option OrderId) :=
  match getType o with
  | OrderType.LIMIT =>
      gw_limitorder env t (side_of_order o) (o_limitPrice o) (o_quantity o) sym [GTC]
  | _ => gw_marketorder env t (side_of_order o) (o_quantity o) sym
  end.

(** The order as [submitOrder] overrides it before it calls the gateway. *)
Definition overridden (o : Order) : Order :=
  with_goodTillCanceled true (with_allOrNone false o).

(** The order the registry holds under the id of the order [l], if any:
    [self.__activeOrders.get(order.getId())]. *)
Definition registered_under_id_of (b : Broker) (l : loc) : option loc :=
  o ← heap b !! l; registry_get_id (activeOrders b) (o_id o).


(** The broker once [refreshAccountBalance] has read the balances [bal]. *)
Definition refreshed (rt : Runtime) (bal : gmap string float) (b : Broker) : Broker :=
  let sym := symbol b in
  with_stop false
    (with_shares [(sym, default 0%float (bal !! cc1 sym))]
       (with_cash (py_round rt (default 0%float (bal !! cc2 sym)) 2)
          (with_stop true b))).

(** The state [addExecutionInfo] leaves the order [o] in. *)
Definition state_after (o : Order) : State.t :=
  if fully_filled o then State.FILLED else State.PARTIALLY_FILLED.

(** The types of message [toBookMessages] turns into a delta. *)
Definition known_type (cbt : jval) : bool :=
  eq_str cbt "done" || eq_str cbt "open" || eq_str cbt "match" || eq_str cbt "change".

(** The message gets past the two early returns of [toBookMessages]: its
    type is not 'received' and, if its type is 'done', it has an order type,
    which is not 'market'. *)
Definition past_early_returns (d : pydict) : Prop :=
  ∃ cbt, d !! "type" = Some cbt
         ∧ eq_str cbt "received" = false
         ∧ (eq_str cbt "done" = true →
            ∃ ot, d !! "order_type" = Some ot ∧ eq_str ot "market" = false).

(* ===================================================================== *)
(** * The rest of the connector *)
(* ===================================================================== *)

(** Python's truth value of a scalar: [if v:]. *)
Definition truthy (v : jval) : bool :=
  match v with
  | JNull => false
  | JBool b => b
  | JInt z => negb (z =? 0)
  | JFloat f => negb (f =? 0)%float
  | JStr s => negb (bool_decide (s = ""))
  end.

#[export] Instance Symbol_eq_dec : EqDecision Symbol.
Proof. solve_decision. Defined.

#[export] Instance Flag_eq_dec : EqDecision Flag.
Proof. solve_decision. Defined.

(** ** livebroker.py: the trade queue *)

(** The fields of a [LiveBroker] that [onMatchEvent] and [dispatch] use
    besides the broker's: the queue of user trades, oldest first, and
    [match_lag], a [timedelta] in microseconds. *)
Record Inbox : Type := mkInbox {
  userTradeQueue : list pydict;
  match_lag : option Z;
}.

Section Queue.

Context (rt : Runtime) (env : Collaborators).

(** [onMatchEvent], at the instant [utcnow]: its result and the inbox it
    leaves.  The lag is stored before the match is looked at, so it stays
    stored when [involves] raises; a match whose time cannot be read leaves
    the inbox as it was.  The registry is read, nothing of the broker is
    written. *)
Definition onMatchEvent (utcnow : datetime) (j : pydict) (box : Inbox) (b : Broker)
    : result unit * Inbox :=
  match match_datetime rt j with
  | Raise e => (Raise e, box)
  | Ok d =>
      let box := mkInbox (userTradeQueue box) (Some (utcnow - d)) in
      match involves j (dom (activeOrders b)) with
      | Raise e => (Raise e, box)
      | Ok oid =>
          if truthy oid
          then (Ok tt, mkInbox (userTradeQueue box ++ [j]) (match_lag box))
          else (Ok tt, box)
      end
  end.

(** [dispatch]: [Queue.get] with a timeout gives the oldest match, and
    [Queue.Empty] when there is none by then; only that exception is
    caught. *)
Definition dispatch (box : Inbox) (w : World) : result bool * (Inbox * World) :=
  match userTradeQueue box with
  | [] => (Ok false, (box, w))
  | j :: rest =>
      let run := _onUserTrade rt env j w in
      (run.1, (mkInbox rest (match_lag box), run.2))
  end.

End Queue.

(** ** livebroker.py: reading the broker *)

Definition getCash : M float := gets cash.

(** [self.__shares.get(instrument, 0)] *)
Definition getShares (instrument : Symbol) : M float :=
  sh ← gets shares;
  mret (default 0%float (snd <$> head (filter (λ p, p.1 = instrument) sh))).

Definition getPositions : M (list (Symbol * float)) := gets shares.

(** [getActiveOrders]: the argument is not used. *)
Definition getActiveOrders (instrument : option Symbol) : M (list loc) :=
  a ← gets activeOrders;
  mret (snd <$> map_to_list a).

(** ** livebroker.py: creating orders *)

(** The instrument traits the gateway gives; their class is not under
    src/. *)
Record InstrumentTraits : Type := mkTraits {
  roundQuantity : float → float;
  roundPrice : float → float;
}.

Section Create.

(** The constructors of [broker.MarketOrder] and [broker.LimitOrder] are not
    under src/: [new_order cls action price quantity] stands for
    [MarketOrder(action, instrument, quantity, False, traits)] when [price]
    is [None] and for [LimitOrder(action, instrument, price, quantity,
    traits)] otherwise.  [traits] is the answer of
    [self.__httpClient.instrumentTraits()[instrument]]. *)
Context (new_order : OrderClass → Action.t → option float → float → result Order)
        (traits : Symbol → result InstrumentTraits).

(** The dictionary of [_createOrder]. *)
Definition normalize_action (action : Action.t) : Action.t :=
  match action with
  | Action.BUY_TO_COVER => Action.BUY
  | Action.BUY => Action.BUY
  | Action.SELL_SHORT => Action.SELL
  | Action.SELL => Action.SELL
  end.

(** [_createOrder]; [None] is what Python returns when no [return] is
    reached.  The action is one of the four of [Order.Action], so the
    dictionary always has it. *)
Definition _createOrder (self_symbol : Symbol) (orderType : OrderClass)
    (action : Action.t) (instrument : Symbol) (quantity price : float)
    : result (option Order) :=
  if negb (bool_decide (instrument = self_symbol))
  then Raise (Exception "Only %r instrument is supported")
  else
    let action := normalize_action action in
    instrumentTraits ← traits instrument;
    let quantity := roundQuantity instrumentTraits quantity in
    let price := roundPrice instrumentTraits price in
    if bool_decide (orderType = MarketOrder)
    then o ← new_order orderType action None quantity; mret (Some o)
    else if bool_decide (orderType = LimitOrder)
    then o ← new_order orderType action (Some price) quantity; mret (Some o)
    else mret None.

Definition createMarketOrder (self_symbol : Symbol) (action : Action.t)
    (instrument : Symbol) (quantity : float) (onClose : bool) : result (option Order) :=
  _createOrder self_symbol MarketOrder action instrument quantity 0%float.

Definition createLimitOrder (self_symbol : Symbol) (action : Action.t)
    (instrument : Symbol) (limitPrice quantity : float) : result (option Order) :=
  _createOrder self_symbol LimitOrder action instrument quantity limitPrice.

Definition createStopOrder (action : Action.t) (instrument : Symbol)
    (stopPrice quantity : float) : result (option Order) :=
  Raise (Exception "Stop orders are not supported").

Definition createStopLimitOrder (action : Action.t) (instrument : Symbol)
    (stopPrice limitPrice quantity : float) : result (option Order) :=
  Raise (Exception "Stop limit orders are not supported").

End Create.

(** ** netclients.py: symbols *)

Definition BTCUSD : string := "BTCUSD".
Definition BTCEUR : string := "BTCEUR".

Definition LOCAL_SYMBOL : gmap string string :=
  {[ BTCUSD := "BTC-USD"; BTCEUR := "BTC-EUR" ]}.

(** [{ v: k for k, v in d.items() }]: the items are taken one after the
    other and a later one overwrites an earlier one with the same value. *)
Definition invert (d : gmap string string) : gmap string string :=
  foldl (λ acc kv, <[kv.2 := kv.1]> acc) ∅ (map_to_list d).

Definition SYMBOL_LOCAL : gmap string string := invert LOCAL_SYMBOL.

(** ** netclients.py: placing orders *)

(** The parameters [BinanceRest.limitorder] posts.  [flags] is the tuple of
    flags, [cancel_after] is [JNull] for [None]. *)
Definition limitorder_params (side : Side) (price size : float) (symbol : string)
    (flags : list Flag) (cancel_after : jval) : result pydict :=
  let bs := match side with Bid => "BUY" | Ask => "SELL" end in
  local ← match LOCAL_SYMBOL !! symbol with
          | Some s => Ok s
          | None => Raise (KeyError symbol)
          end;
  let params : pydict :=
    {[ "symbol" := JStr local; "side" := JStr bs; "type" := JStr "LIMIT";
       "quantity" := JFloat size; "price" := JFloat price ]} in
  params ← (if bool_decide (GTT ∈ flags)
            then if is_None cancel_after
                 then Raise (ValueError "No cancel time specified")
                 else mret (<["cancel_after" := cancel_after]>
                              (<["time_in_force" := JStr "GTT"]> params))
            else mret params);
  mret (if bool_decide (POST_ONLY ∈ flags)
        then <["post_only" := JBool true]> params
        else if negb (bool_decide (GTT ∈ flags))
        then if bool_decide (GTC ∈ flags) then <["time_in_force" := JStr "GTC"]> params
             else if bool_decide (IOC ∈ flags) then <["time_in_force" := JStr "IOC"]> params
             else if bool_decide (FOK ∈ flags) then <["time_in_force" := JStr "FOK"]> params
             else params
        else params).

(** [BinanceRest.limitorder]; [post] is [self._auth_postj('orders', json=...)],
    the answer of the venue to the request. *)
Definition limitorder (post : pydict → result pydict) (side : Side)
    (price size : float) (symbol : string) (flags : list Flag) (cancel_after : jval)
    : result jval :=
  params ← limitorder_params side price size symbol flags cancel_after;
  answer ← post params;
  getitem answer "id".

(** [BinanceRest.marketorder] *)
Definition marketorder (post : pydict → result pydict) (side : Side)
    (size : float) (symbol : string) : result jval :=
  let bs := match side with Bid => "buy" | Ask => "sell" end in
  local ← match LOCAL_SYMBOL !! symbol with
          | Some s => Ok s
          | None => Raise (KeyError symbol)
          end;
  let params : pydict :=
    {[ "type" := JStr "market"; "side" := JStr bs; "product_id" := JStr local;
       "size" := JFloat size ]} in
  answer ← post params;
  getitem answer "id".

(** ** netclients.py: [lazy_init] *)

(** A [lazy_init] object: the cached value ([JNull] for [None]) and, for the
    model, how many times the decorated function was invoked. *)
Record LazyInit : Type := mkLazy {
  li_val : jval;
  li_invocations : nat;
}.

(** [lazy_init.__call__]; [f k] is what the decorated function answers at
    its invocation number [k]. *)
Definition lazy_call (f : nat → result jval) (s : LazyInit) : result jval * LazyInit :=
  if is_None (li_val s)
  then match f (li_invocations s) with
       | Ok v => (Ok v, mkLazy v (S (li_invocations s)))
       | Raise e => (Raise e, mkLazy (li_val s) (S (li_invocations s)))
       end
  else (Ok (li_val s), s).

(** [n] calls in a row, with their results. *)
Fixpoint lazy_calls (n : nat) (f : nat → result jval) (s : LazyInit)
    : list (result jval) * LazyInit :=
  match n with
  | O => ([], s)
  | S n' =>
      let '(r, s') := lazy_call f s in
      let '(rs, s'') := lazy_calls n' f s' in
      (r :: rs, s'')
  end.

(** ** wsclient.py: trade bars and incoming messages *)

Inductive Direction : Type := UP | DOWN.

(** A [TradeBar]: the fields [BinanceMatch.TradeBar] fills.  The constructor
    of the base class [bar.BasicBar] is not under src/. *)
Record TradeBar : Type := mkTradeBar {
  tb_dateTime : datetime;
  tb_open : float;
  tb_high : float;
  tb_low : float;
  tb_close : float;
  tb_volume : float;
  tb_direction : Direction;
  tb_seq : Z;
}.

(** The events of [WebSocketClient] that [onMessage] queues. *)
Inductive WsEvent : Type :=
  | ON_TRADE (bar : TradeBar)
  | ON_MATCH (j : pydict).

(** What [onMessage] asks of its queue and of its synchronizer. *)
Inductive WsEffect : Type :=
  | QueuePut (e : WsEvent)
  | SubmitStreamData (ts : datetime) (data : list BookMessage).

Section WebSocket.

Context (rt : Runtime).

(** [BinanceMatch.seq] *)
Definition match_seq (j : pydict) : result Z :=
  E ← getitem j "E";
  py_int rt E.

(** [BinanceMatch.TradeBar] *)
Definition match_TradeBar (j : pydict) : result TradeBar :=
  price ← match_price rt j;
  volume ← match_size rt j;
  m ← getitem j "m";
  let dir_ := if truthy m then DOWN else UP in
  d ← match_datetime rt j;
  seq ← match_seq j;
  mret (mkTradeBar d price price price price volume dir_ seq).

(** [WebSocketClient.onMessage] on a decoded message: its result and, in
    order, what it asked of the queue and of the synchronizer before it
    returned or raised.  The synchronizer is a collaborator: what it does
    with the data is not part of the model. *)
Definition onMessage (symbol : string) (m : pydict) : result unit * list WsEffect :=
  match getitem m "e" with
  | Raise e => (Raise e, [])
  | Ok e =>
      if eq_str e "depthUpdate" then
        match toBookMessages rt (Decoded m) symbol with
        | Ok bms => (Ok tt, [SubmitStreamData (datetime_now rt) bms])
        | Raise x => (Raise x, [])
        end
      else if eq_str e "trade" then
        match match_TradeBar m with
        | Ok bar => (Ok tt, [QueuePut (ON_MATCH m); QueuePut (ON_TRADE bar)])
        | Raise x => (Raise x, [QueuePut (ON_MATCH m)])
        end
      else (Ok tt, [])
  end.

End WebSocket.

(** ** What the further properties speak of *)

(** Every id of the registry leads to an order that carries this id. *)
Definition consistent (b : Broker) : Prop :=
  ∀ i l, activeOrders b !! i = Some l → ∃ o, heap b !! l = Some o ∧ o_id o = Some i.

(** From [b] to [b']: every order is still there with the id it had, the
    registry has gained nothing, and the symbol is the same. *)
Definition settles (b b' : Broker) : Prop :=
  (∀ l o, heap b !! l = Some o → ∃ o', heap b' !! l = Some o' ∧ o_id o' = o_id o)
  ∧ (∀ i l, activeOrders b' !! i = Some l → activeOrders b !! i = Some l)
  ∧ symbol b' = symbol b.

(** Every run of [m] takes the broker to one that [R] relates to it. *)
Definition steps (R : Broker → Broker → Prop) {A} (m : M A) : Prop :=
  ∀ w, R (broker w) (broker (m w).2).

(** Every run of [m] from a broker with the property [I] ends in one. *)
Definition keeps (I : Broker → Prop) {A} (m : M A) : Prop :=
  ∀ w, I (broker w) → I (broker (m w).2).

(** The registry is consistent and still holds all of [a]. *)
Definition grown_from (a : gmap OrderId loc) (b : Broker) : Prop :=
  consistent b ∧ a ⊆ activeOrders b.

Module MoreExamples.

(** A trade message of the stream, as Binance sends it. *)
Definition trade_message : pydict :=
  {[ "e" := JStr "trade"; "E" := JInt 123456789; "s" := JStr "BTCUSDT";
     "p" := JStr "100"; "q" := JStr "0.4"; "a" := JStr "7"; "b" := JStr "9";
     "T" := JInt 1500000000; "m" := JBool true ]}.

(** A depth update of the stream, as Binance sends it (its lists of levels
    left out). *)
Definition depth_message : pydict :=
  {[ "e" := JStr "depthUpdate"; "E" := JInt 123456789; "s" := JStr "BTCUSDT";
     "U" := JInt 157; "u" := JInt 160 ]}.

(** The traits of an instrument whose prices and quantities need no
    rounding. *)
Definition exact_traits : InstrumentTraits := mkTraits (λ x, x) (λ x, x).

(** The constructor of an order in the spec's Initial state. *)
Definition initial_order (cls : OrderClass) (action : Action.t)
    (price : option float) (quantity : float) : result Order :=
  Ok (mkOrder cls None action (default 0%float price) quantity 0 0
        State.INITIAL [] false false None).

(** The venue received an order it gave the id 3: not one of ours. *)
Definition unknown_change : pydict :=
  {[ "order_id" := JStr "3"; "type" := JStr "received" ]}.




(** The bar of [trade_message]. *)
Definition trade_bar : TradeBar :=
  mkTradeBar 1500000000000000 100 100 100 100 0.4 DOWN 123456789.

(** The delta of [Examples.open_message]. *)
Definition open_delta : BookMessage :=
  mkBookMessage Increase 501 VENUE "BTCUSD" 100 2 Bid.

(** What [Examples.done_partly_filled] parses to. *)
Definition done_partly_filled_parsed : Parsed :=
  mkParsed (JStr "7") (Some 100%float) (Some State.CANCELED) (Some EventType.CANCELED).

(** A decorated function that answers the number of its invocation. *)
Definition counting (k : nat) : result jval := Ok (JInt (Z.of_nat k)).

(** An inbox with nothing in it. *)
Definition empty_inbox : Inbox := mkInbox [] None.

(** The request of a good-till-canceled BUY 1.0 @ 100. *)
Definition gtc_request : pydict :=
  {[ "symbol" := JStr "BTC-USD"; "side" := JStr "BUY"; "type" := JStr "LIMIT";
     "quantity" := JFloat 1; "price" := JFloat 100; "time_in_force" := JStr "GTC" ]}.

(** SELL 2.0 @ 120 with id 5, open at the venue since an earlier run. *)
Definition earlier_order : Order :=
  mkOrder LimitOrder (Some "5") Action.SELL 120 2 0 0 State.ACCEPTED [] false true
    (Some 1400000000000000).

(** A venue that answers every request and has that order open. *)
Definition venue_with_open_order : Collaborators :=
  steady (Ok Examples.balances) (Ok [earlier_order]) (Ok (Some "8")) (Ok tt) (Ok tt).

(** Order 7 is registered; the new limit order got the id 8 from the venue
    and is not registered yet. *)
Definition trading_as_placed : World :=
  Examples.world {[ "7" := 1%positive ]}
    {[ 1%positive := Examples.open_order LimitOrder;
       2%positive := with_submitted (Some "8") 1500000000000000
                       (Examples.new_order LimitOrder) ]}.

End MoreExamples.

(* ===================================================================== *)
(** * Properties *)
(* ===================================================================== *)

(** ** Running the monad *)

Lemma run_bind {A B} (m : M A) (k : A → M B) (w : World) :
  (m ≫= k) w =
  match m w with
  | (Ok a, w') => k a w'
  | (Raise e, w') => (Raise e, w')
  end.
Proof. reflexivity. Qed.

Lemma run_ret {A} (a : A) (w : World) : (mret a : M A) w = (Ok a, w).
Proof. reflexivity. Qed.

Lemma run_deref (l : loc) (o : Order) (w : World) :
  heap (broker w) !! l = Some o → deref l w = (Ok o, w).
Proof. intros H. unfold deref. by rewrite H. Qed.

Lemma run_getter {A} (f : Order → A) (l : loc) (o : Order) (w : World) :
  heap (broker w) !! l = Some o → getter f l w = (Ok (f o), w).
Proof. intros H. unfold getter. rewrite run_bind, (run_deref l o) by done. done. Qed.

Lemma run_setter (f : Order → Order) (l : loc) (o : Order) (w : World) :
  heap (broker w) !! l = Some o →
  setter f l w = (Ok tt, mkWorld (set_order l (f o) (broker w)) (trace w)).
Proof. intros H. unfold setter. rewrite run_bind, (run_deref l o) by done. done. Qed.

Lemma run_switchState (l : loc) (s : State.t) (o : Order) (w : World) :
  heap (broker w) !! l = Some o →
  valid_transition (o_state o) s = true →
  switchState l s w = (Ok tt, mkWorld (set_order l (with_state s o) (broker w)) (trace w)).
Proof.
  intros H Hv. unfold switchState.
  rewrite run_bind, (run_deref l o), Hv by done. done.
Qed.

Lemma run_registerOrder (l : loc) (o : Order) (i : OrderId) (w : World) :
  heap (broker w) !! l = Some o →
  o_id o = Some i →
  activeOrders (broker w) !! i = None →
  _registerOrder l w = (Ok tt, mkWorld (set_active i l (broker w)) (trace w)).
Proof.
  intros H Hi Hn. unfold _registerOrder.
  rewrite run_bind, (run_getter _ l o) by done.
  rewrite Hi. unfold gets, assert, skip. rewrite !run_bind. simpl.
  rewrite Hn. by rewrite bool_decide_eq_false_2 by (by intros [? ?]).
Qed.

Lemma run_unregisterOrder (l l' : loc) (o : Order) (i : OrderId) (w : World) :
  heap (broker w) !! l = Some o →
  o_id o = Some i →
  activeOrders (broker w) !! i = Some l' →
  _unregisterOrder l w = (Ok tt, mkWorld (del_active i (broker w)) (trace w)).
Proof.
  intros H Hi Hn. unfold _unregisterOrder.
  rewrite run_bind, (run_getter _ l o) by done.
  rewrite Hi. unfold gets, assert, skip. rewrite !run_bind. simpl.
  rewrite Hn. by rewrite bool_decide_eq_true_2 by eauto.
Qed.

Lemma run_registerOrder_refused (l : loc) (o : Order) (w : World) :
  heap (broker w) !! l = Some o →
  o_id o = None ∨ is_Some (registry_get_id (activeOrders (broker w)) (o_id o)) →
  _registerOrder l w = (Raise AssertionError, w).
Proof.
  intros H Hi. unfold _registerOrder.
  rewrite run_bind, (run_getter _ l o) by done.
  unfold gets, assert, skip, raise. rewrite !run_bind. simpl.
  destruct Hi as [Hi | Hi].
  - by rewrite Hi.
  - by rewrite bool_decide_eq_true_2.
Qed.

Lemma run_unregisterOrder_refused (l : loc) (o : Order) (w : World) :
  heap (broker w) !! l = Some o →
  registry_get_id (activeOrders (broker w)) (o_id o) = None →
  _unregisterOrder l w = (Raise AssertionError, w).
Proof.
  intros H Hi. unfold _unregisterOrder.
  rewrite run_bind, (run_getter _ l o) by done.
  unfold gets, assert, skip, raise. rewrite !run_bind. simpl.
  rewrite Hi. by rewrite bool_decide_eq_false_2 by (by intros [? ?]).
Qed.

Lemma set_order_twice (l : loc) (o1 o2 : Order) (b : Broker) :
  set_order l o2 (set_order l o1 b) = set_order l o2 b.
Proof. unfold set_order. simpl. by rewrite insert_insert_eq. Qed.

Lemma run_addExecutionInfo (l : loc) (oei : OrderExecutionInfo) (o : Order) (w : World) :
  heap (broker w) !! l = Some o →
  valid_transition (o_state o) (state_after (with_execution oei o)) = true →
  addExecutionInfo l oei w
  = (Ok tt,
     mkWorld
       (set_order l (with_state (state_after (with_execution oei o)) (with_execution oei o))
          (broker w))
       (trace w)).
Proof.
  intros H Hv. unfold addExecutionInfo, assign, modify.
  rewrite run_bind, (run_deref l o) by done. rewrite run_bind. cbn [broker trace].
  unfold state_after in *.
  destruct (fully_filled (with_execution oei o));
    (erewrite run_switchState;
     [ | cbn [broker heap set_order with_heap]; apply lookup_insert_eq | done ]);
    cbn [broker trace]; by rewrite set_order_twice.
Qed.

(** Look an order up in a store that was just written. *)
Ltac lookup_heap :=
  cbn [broker trace heap activeOrders set_order set_active del_active with_heap
       with_activeOrders with_stop with_cash with_shares logged refreshed];
  rewrite ?lookup_insert_eq; first [eassumption | reflexivity].

(** Run the first command of a sequence. *)
Ltac mstep :=
  rewrite run_bind;
  first [ erewrite run_getter by lookup_heap
        | erewrite run_setter by lookup_heap
        | erewrite run_deref by lookup_heap
        | idtac ];
  cbn [broker trace].

(** Read a field of the broker; run a pure computation whose result [H]
    gives. *)
Ltac mgets := rewrite run_bind; unfold gets at 1; cbn [broker trace].
Ltac mlift H := rewrite run_bind; unfold lift at 1; rewrite H.

Section Properties.

Context (rt : Runtime) (env : Collaborators).

(** C2.  An order that is not in the Initial state is refused by
    [submitOrder] with the "already processed" error, and the world is left
    as it was: no call to the gateway and no event (the trace is the same),
    the same order object, the same registry, the same broker. *)
Theorem submitOrder_already_processed (w : World) (order : loc) (o : Order) :
  heap (broker w) !! order = Some o →
  o_state o ≠ State.INITIAL →
  submitOrder rt env order w
  = (Raise (Exception "The order was already processed"), w).
Proof.
  intros Ho Hs. unfold submitOrder. mstep.
  unfold isInitial. by rewrite bool_decide_eq_false_2.
Qed.

(** C6.  [_registerOrder] on an order whose id is a key of the registry, and
    [_unregisterOrder] on an order whose id is not, raise [AssertionError],
    and the registry (the whole world) is as before: nothing is overwritten
    and the call is not ignored. *)
Theorem register_unregister_fail_loudly (w : World) (order : loc) (o : Order) :
  heap (broker w) !! order = Some o →
  (is_Some (registry_get_id (activeOrders (broker w)) (o_id o)) →
   _registerOrder order w = (Raise AssertionError, w))
  ∧ (registry_get_id (activeOrders (broker w)) (o_id o) = None →
     _unregisterOrder order w = (Raise AssertionError, w)).
Proof.
  intros Ho. split; intros H.
  - by apply (run_registerOrder_refused order o); [| right].
  - by apply (run_unregisterOrder_refused order o).
Qed.

(** The run of [submitOrder] on an Initial order of a supported type, up to
    the gateway's answer. *)
Lemma run_submitOrder (w : World) (order : loc) (o : Order) (c : Call) :
  heap (broker w) !! order = Some o →
  o_state o = State.INITIAL →
  place_order_call (symbol (broker w)) o = Some c →
  submitOrder rt env order w =
  let b1 := set_order order (overridden o) (broker w) in
  match place_order_answer env (trace w) (symbol (broker w)) o with
  | Ok newOrderId =>
      (setSubmitted order newOrderId (datetime_now rt) ;;
       _registerOrder order ;;
       switchState order State.SUBMITTED ;;
       notifyOrderEvent (mkOrderEvent order (Some EventType.SUBMITTED) None))
        (mkWorld b1 (trace w ++ [(ACall c, b1)]))
  | Raise e => (Raise e, mkWorld b1 (trace w ++ [(ACall c, b1)]))
  end.
Proof.
  intros Ho Hs Hc. unfold submitOrder. mstep.
  unfold isInitial. rewrite bool_decide_eq_true_2 by done.
  unfold setAllOrNone, setGoodTillCanceled. do 5 mstep.
  rewrite set_order_twice. fold (overridden o).
  rewrite run_bind. unfold gets at 1. cbn [broker symbol set_order with_heap].
  rewrite run_bind.
  unfold place_order_call, place_order_answer in *.
  change (getType (overridden o)) with (getType o).
  change (isBuy (overridden o)) with (isBuy o).
  change (o_quantity (overridden o)) with (o_quantity o).
  fold (side_of_order o).
  destruct (getType o) eqn:Ht; try discriminate; simplify_eq.
  - rewrite bool_decide_eq_false_2, bool_decide_eq_true_2 by done.
    unfold httpClient_marketorder, call, logged. cbn [broker trace].
    by destruct (gw_marketorder _ _ _ _ _).
  - rewrite bool_decide_eq_true_2 by done. mstep.
    change (o_limitPrice (overridden o)) with (o_limitPrice o).
    unfold httpClient_limitorder, call, logged. cbn [broker trace].
    by destruct (gw_limitorder _ _ _ _ _ _ _).
Qed.

(** The rest of that run when the gateway gave an id the registry does not
    have: the id is assigned, the order is registered and switched, and then
    the event is emitted. *)
Lemma run_submitOrder_placed (w : World) (order : loc) (o : Order) (i : OrderId) :
  heap (broker w) !! order = Some o →
  o_state o = State.INITIAL →
  activeOrders (broker w) !! i = None →
  (setSubmitted order (Some i) (datetime_now rt) ;;
   _registerOrder order ;;
   switchState order State.SUBMITTED ;;
   notifyOrderEvent (mkOrderEvent order (Some EventType.SUBMITTED) None)) w
  = (Ok tt,
     logged (AEmit (mkOrderEvent order (Some EventType.SUBMITTED) None))
       (mkWorld
          (set_order order
             (with_state State.SUBMITTED (with_submitted (Some i) (datetime_now rt) o))
             (set_active i order (broker w)))
          (trace w))).
Proof.
  intros Ho Hs Hi. unfold setSubmitted. mstep.
  rewrite run_bind.
  erewrite (run_registerOrder order _ i) by (first [lookup_heap | done]).
  cbn [broker trace]. rewrite run_bind.
  erewrite run_switchState; [| lookup_heap | by simpl; rewrite Hs].
  cbn [broker trace]. unfold notifyOrderEvent, record.
  do 3 f_equal. unfold set_active, set_order. simpl. by rewrite insert_insert_eq.
Qed.

(** C3, as amended.  On an Initial order of a supported type, [submitOrder]
    calls the gateway once, with the order's flags overridden.  If the
    gateway answers with an id that is not [None] and not a key of the
    registry, the call returns; the order then carries that id, is in state
    Submitted and is registered under the id; and exactly one event was
    emitted, SUBMITTED, to observers that find the broker as the call leaves
    it, with the registration and the switch done.  If the gateway raises,
    [submitOrder] raises the same error at once; the order is in state
    Initial, the registry is as before and no event was emitted. *)
Theorem submitOrder_initial (w : World) (order : loc) (o : Order) (c : Call) :
  heap (broker w) !! order = Some o →
  o_state o = State.INITIAL →
  place_order_call (symbol (broker w)) o = Some c →
  let b1 := set_order order (overridden o) (broker w) in
  let answer := place_order_answer env (trace w) (symbol (broker w)) o in
  (∀ i, answer = Ok (Some i) →
        activeOrders (broker w) !! i = None →
        ∃ w' o',
          submitOrder rt env order w = (Ok tt, w')
          ∧ heap (broker w') !! order = Some o'
          ∧ o_id o' = Some i
          ∧ o_state o' = State.SUBMITTED
          ∧ activeOrders (broker w') = <[i := order]> (activeOrders (broker w))
          ∧ trace w' = trace w ++
              [(ACall c, b1);
               (AEmit (mkOrderEvent order (Some EventType.SUBMITTED) None), broker w')])
  ∧ (∀ e, answer = Raise e →
        ∃ w',
          submitOrder rt env order w = (Raise e, w')
          ∧ heap (broker w') !! order = Some (overridden o)
          ∧ o_state (overridden o) = State.INITIAL
          ∧ activeOrders (broker w') = activeOrders (broker w)
          ∧ trace w' = trace w ++ [(ACall c, b1)]).
Proof.
  intros Ho Hs Hc b1 answer. split.
  - intros i Ha Hi. rewrite (run_submitOrder w order o c) by done.
    fold answer. rewrite Ha. cbn zeta.
    rewrite (run_submitOrder_placed _ order (overridden o) i);
      [| lookup_heap | done | done].
    eexists _, _. split; [reflexivity |].
    unfold logged. cbn [broker trace].
    split; [lookup_heap |]. repeat split.
    by rewrite <- app_assoc.
  - intros e Ha. rewrite (run_submitOrder w order o c) by done.
    fold answer. rewrite Ha. cbn zeta.
    eexists. split; [reflexivity |]. cbn [broker trace].
    split; [lookup_heap |]. done.
Qed.

(** C9.  When [submitOrder] returns, the last thing it did was to emit the
    SUBMITTED event of the order, and the order the observers find then has
    [allOrNone] unset and [goodTillCanceled] set, whatever the caller had
    put there. *)
Theorem submitted_order_flags (w w' : World) (order : loc) :
  submitOrder rt env order w = (Ok tt, w') →
  ∃ t b o',
    trace w' = t ++ [(AEmit (mkOrderEvent order (Some EventType.SUBMITTED) None), b)]
    ∧ heap b !! order = Some o'
    ∧ o_allOrNone o' = false
    ∧ o_goodTillCanceled o' = true.
Proof.
  intros Hrun.
  destruct (heap (broker w) !! order) as [o|] eqn:Ho; cycle 1.
  { unfold submitOrder, getter, deref in Hrun.
    rewrite !run_bind, Ho in Hrun. discriminate. }
  destruct (decide (o_state o = State.INITIAL)) as [Hs | Hs]; cycle 1.
  { unfold submitOrder in Hrun. rewrite run_bind, (run_getter _ order o) in Hrun by done.
    unfold isInitial in Hrun. rewrite bool_decide_eq_false_2 in Hrun by done.
    discriminate. }
  destruct (place_order_call (symbol (broker w)) o) as [c|] eqn:Hc; cycle 1.
  { unfold submitOrder in Hrun. rewrite run_bind, (run_getter _ order o) in Hrun by done.
    unfold isInitial in Hrun. rewrite bool_decide_eq_true_2 in Hrun by done.
    unfold setAllOrNone, setGoodTillCanceled in Hrun.
    rewrite run_bind in Hrun. erewrite run_setter in Hrun by lookup_heap.
    rewrite run_bind in Hrun. erewrite run_setter in Hrun by lookup_heap.
    rewrite run_bind in Hrun. erewrite run_getter in Hrun by lookup_heap.
    rewrite run_bind in Hrun. erewrite run_getter in Hrun by lookup_heap.
    rewrite run_bind in Hrun. erewrite run_getter in Hrun by lookup_heap.
    unfold place_order_call in Hc.
    change (getType (with_goodTillCanceled true (with_allOrNone false o)))
      with (getType o) in Hrun.
    destruct (getType o); try discriminate; by vm_compute in Hrun. }
  rewrite (run_submitOrder w order o c) in Hrun by done. cbn zeta in Hrun.
  destruct (place_order_answer env (trace w) (symbol (broker w)) o) as [[i|]|e];
    [| | discriminate].
  - destruct (activeOrders (broker w) !! i) as [l|] eqn:Hi.
    + unfold setSubmitted in Hrun.
      rewrite run_bind in Hrun. erewrite run_setter in Hrun by lookup_heap.
      rewrite run_bind in Hrun.
      erewrite run_registerOrder_refused in Hrun;
        [discriminate | lookup_heap | right; simpl; rewrite Hi; eauto].
    + rewrite (run_submitOrder_placed _ order (overridden o) i) in Hrun;
        [| lookup_heap | done | done].
      injection Hrun as <-. unfold logged. cbn [broker trace].
      eexists _, _, _. split; [reflexivity |]. split; [lookup_heap |]. done.
  - unfold setSubmitted in Hrun.
    rewrite run_bind in Hrun. erewrite run_setter in Hrun by lookup_heap.
    rewrite run_bind in Hrun.
    erewrite run_registerOrder_refused in Hrun;
      [discriminate | lookup_heap | by left].
Qed.

(** The two runs of [refreshAccountBalance]. *)
Lemma run_refreshAccountBalance (w : World) (bal : gmap string float) :
  gw_balances env (trace w) = Ok bal →
  refreshAccountBalance rt env w
  = (Ok tt,
     mkWorld (refreshed rt bal (broker w))
       (trace w ++ [(ACall CBalances, with_stop true (broker w))])).
Proof.
  intros H. unfold refreshAccountBalance, httpClient_balances, call, modify, gets.
  rewrite !run_bind. cbn [broker trace logged]. rewrite H. by rewrite run_bind.
Qed.

Lemma run_refreshAccountBalance_down (w : World) (e : exn) :
  gw_balances env (trace w) = Raise e →
  refreshAccountBalance rt env w
  = (Raise e,
     mkWorld (with_stop true (broker w))
       (trace w ++ [(ACall CBalances, with_stop true (broker w))])).
Proof.
  intros H. unfold refreshAccountBalance, httpClient_balances, call, modify, gets.
  rewrite !run_bind. cbn [broker trace logged]. by rewrite H.
Qed.


(** C8.  The fee of a trade is zero for an order of class [LimitOrder]; for
    any other order it is 0.0025 times the price of the match times its
    size, in floating point, from left to right. *)
Theorem fees_spec (order : Order) (j : pydict) :
  (o_class order = LimitOrder → fees rt order j = Ok 0%float)
  ∧ (∀ price size,
       o_class order ≠ LimitOrder →
       match_price rt j = Ok price →
       match_size rt j = Ok size →
       fees rt order j = Ok (0.0025 * price * size)%float).
Proof.
  unfold fees. split.
  - intros H. by rewrite bool_decide_eq_true_2.
  - intros price size H Hp Hs. rewrite bool_decide_eq_false_2 by done.
    by rewrite Hp, Hs.
Qed.


(** ** Startup *)

(** [_registerOrder] either raises and changes nothing, or registers the
    order under its id, which was free. *)
Lemma registerOrder_cases (l : loc) (w : World) :
  (∃ e, _registerOrder l w = (Raise e, w))
  ∨ (∃ o i, heap (broker w) !! l = Some o ∧ o_id o = Some i
            ∧ activeOrders (broker w) !! i = None
            ∧ _registerOrder l w = (Ok tt, mkWorld (set_active i l (broker w)) (trace w))).
Proof.
  destruct (heap (broker w) !! l) as [o|] eqn:Ho; cycle 1.
  { left. exists UnboundReference. unfold _registerOrder, getter, deref.
    by rewrite !run_bind, Ho. }
  destruct (o_id o) as [i|] eqn:Hi; cycle 1.
  { left. eexists. apply (run_registerOrder_refused l o); auto. }
  destruct (activeOrders (broker w) !! i) as [l'|] eqn:Ha.
  - left. eexists. apply (run_registerOrder_refused l o); [done |].
    right. rewrite Hi. simpl. rewrite Ha. eauto.
  - right. exists o, i. repeat split; try done. by apply (run_registerOrder l o).
Qed.






(** ** Order-status changes *)

(** [_unregisterOrder] either raises and changes nothing, or removes the
    order's id from the registry. *)
Lemma unregisterOrder_cases (l : loc) (w : World) :
  (∃ e, _unregisterOrder l w = (Raise e, w))
  ∨ (∃ i, _unregisterOrder l w = (Ok tt, mkWorld (del_active i (broker w)) (trace w))).
Proof.
  destruct (heap (broker w) !! l) as [o|] eqn:Ho; cycle 1.
  { left. exists UnboundReference. unfold _unregisterOrder, getter, deref.
    by rewrite !run_bind, Ho. }
  destruct (registry_get_id (activeOrders (broker w)) (o_id o)) as [l'|] eqn:Ha.
  - right. destruct (o_id o) as [i|] eqn:Hi; [| done]. exists i.
    by apply (run_unregisterOrder l l' o).
  - left. eexists. by apply (run_unregisterOrder_refused l o).
Qed.

(** A change that carries no execution of its own: one event, and the
    observers find the order in the new state.  This holds whether the
    housekeeping that follows the emission (unregistering an order that is
    no longer active, refreshing the balances) succeeds or not. *)
Lemma onChangeEvent_without_execution (w : World) (j : pydict) (i : OrderId)
    (order : loc) (o : Order) (newstate : State.t) (event_type : option EventType.t) :
  change_id rt j = Ok (JStr i) →
  activeOrders (broker w) !! i = Some order →
  change_new_state rt j = Ok (Some newstate) →
  heap (broker w) !! order = Some o →
  change_oei rt j o = Ok None →
  change_event_type rt j = Ok event_type →
  newstate = o_state o ∨ valid_transition (o_state o) newstate = true →
  let run := onChangeEvent rt env j w in
  emitted (trace run.2) = emitted (trace w) ++ [mkOrderEvent order event_type None]
  ∧ states_at_emission (trace run.2) = states_at_emission (trace w) ++ [Some newstate].
Proof.
  intros Hid Hreg Hnew Ho Hoei Hety Hvalid run.
  set (ev := mkOrderEvent order event_type None).
  assert (∃ b t, trace run.2 = trace w ++ [(AEmit ev, b)] ++ t
                 ∧ emitted t = []
                 ∧ states_at_emission t = []
                 ∧ heap b !! order = Some (with_state newstate o))
    as (b & t & Htr & Het & Hst & Hb).
  { subst run. unfold onChangeEvent.
    mlift Hid. mgets. cbn [registry_get]. rewrite Hreg.
    mlift Hnew. mstep. mlift Hoei. rewrite run_bind, run_ret. mstep.
    assert (∃ b,
      heap b !! order = Some (with_state newstate o) ∧
      ((if negb (bool_decide (newstate = o_state o))
        then switchState order newstate else skip) w = (Ok tt, mkWorld b (trace w))))
      as (b & Hb & Hsw).
    { destruct (decide (newstate = o_state o)) as [-> | Hne].
      - rewrite bool_decide_eq_true_2 by done. exists (broker w). split; [| by destruct w].
        rewrite Ho. f_equal. by destruct o.
      - rewrite bool_decide_eq_false_2 by done. destruct Hvalid as [? | Hv]; [done |].
        eexists. split; [| by apply (run_switchState order newstate o)]. lookup_heap. }
    rewrite run_bind, Hsw. cbn [broker trace].
    mlift Hety. rewrite run_bind. unfold notifyOrderEvent, record, logged. cbn [broker trace].
    mstep. fold ev. exists b.
    destruct (isActive (with_state newstate o)); cbn [negb].
    - unfold skip. rewrite run_ret. cbn [fst snd trace]. by exists [].
    - rewrite run_bind.
      destruct (unregisterOrder_cases order (mkWorld b (trace w ++ [(AEmit ev, b)])))
        as [[e ->] | [i' ->]]; cbn [fst snd trace]; [by exists [] |].
      destruct (gw_balances env (trace w ++ [(AEmit ev, b)])) as [bal | e] eqn:Hbal.
      + rewrite (run_refreshAccountBalance _ bal) by done. cbn [fst snd trace].
        rewrite <- app_assoc. by eexists.
      + rewrite (run_refreshAccountBalance_down _ e) by done. cbn [fst snd trace].
        rewrite <- app_assoc. by eexists. }
  rewrite Htr. unfold emitted, states_at_emission in *. rewrite !omap_app.
  rewrite Het, Hst. cbn. by rewrite Hb.
Qed.

End Properties.

(** ** The message translator *)

Lemma eq_str_true (v : jval) (lit : string) : eq_str v lit = true → v = JStr lit.
Proof. destruct v; try discriminate. simpl. intros H. by apply bool_decide_eq_true in H as ->. Qed.

Lemma getitem_Some (d : pydict) (k : string) (v : jval) :
  d !! k = Some v → getitem d k = Ok v.
Proof. intros H. unfold getitem. by rewrite H. Qed.

Section TranslatorProperties.

Context (rt : Runtime).

(** C10, as amended.  The checks of [toBookMessages] are made in this
    order.  A 'received' message gives the empty list, and so does a 'done'
    message whose order type is 'market'.  Past these, a message whose side
    is neither 'buy' nor 'sell' raises [ValueError]; with a known side, a
    message without a 'price' gives the empty list; with a known side and a
    price, a 'change' message whose price is 'null' gives the empty list and
    a message of an unknown type raises [ValueError].  A result that is not
    empty is one delta, tagged with the integer of the message's 'sequence'
    field, the venue and the symbol. *)
Theorem toBookMessages_spec (binance_json : BookInput) (symbol : string)
    (d : pydict) (cbt : jval) :
  decode rt binance_json = Ok d →
  d !! "type" = Some cbt →
  let run := toBookMessages rt binance_json symbol in
  (eq_str cbt "received" = true → run = Ok [])
  ∧ (eq_str cbt "done" = true →
     ∀ ot, d !! "order_type" = Some ot → eq_str ot "market" = true → run = Ok [])
  ∧ (past_early_returns d →
     ∀ side, d !! "side" = Some side →
       (side_of side = None → run = Raise (ValueError "Unknown side"))
       ∧ (is_Some (side_of side) →
          (d !! "price" = None → run = Ok [])
          ∧ (∀ price, d !! "price" = Some price →
               (eq_str cbt "change" = true → eq_str price "null" = true → run = Ok [])
               ∧ (known_type cbt = false →
                  run = Raise (ValueError "Unknown binance message")))))
  ∧ (∀ l, run = Ok l →
       l = [] ∨ ∃ m, l = [m]
                     ∧ (getitem d "sequence" ≫= py_int rt) = Ok (bm_rts m)
                     ∧ bm_venue m = VENUE
                     ∧ bm_symbol m = symbol).
Proof.
  intros Hd Ht run. subst run. unfold toBookMessages. rewrite Hd.
  cbn [mbind result_bind]. rewrite (getitem_Some d "type" cbt Ht).
  cbn [mbind result_bind].
  split; [| split; [| split]].
  - by intros ->.
  - intros Hdone ot Hot Hm.
    apply eq_str_true in Hdone as ->. cbn [eq_str]. rewrite bool_decide_eq_false_2 by done.
    rewrite bool_decide_eq_true_2 by done.
    rewrite (getitem_Some d "order_type" ot Hot). cbn [mbind result_bind mret result_ret].
    by rewrite Hm.
  - intros (cbt' & Ht' & Hrecv & Hmarket) side Hside.
    assert (cbt' = cbt) as -> by congruence. rewrite Hrecv.
    assert ((if eq_str cbt "done"
             then order_type ← getitem d "order_type"; mret (eq_str order_type "market")
             else mret false) = Ok false) as ->.
    { destruct (eq_str cbt "done"); [| done].
      destruct Hmarket as (ot & Hot & Hm); [done |].
      rewrite (getitem_Some d "order_type" ot Hot). cbn. by rewrite Hm. }
    cbn [mbind result_bind]. rewrite (getitem_Some d "side" side Hside).
    cbn [mbind result_bind]. split.
    + by intros ->.
    + intros [sd Hsd]. rewrite Hsd. split.
      * by intros ->.
      * intros price ->. split.
        -- intros Hc Hnull. apply eq_str_true in Hc as ->. cbn [eq_str].
           rewrite !bool_decide_eq_false_2 by done.
           rewrite bool_decide_eq_true_2 by done. by rewrite Hnull.
        -- unfold known_type. intros Hk.
           repeat (apply orb_false_elim in Hk as [Hk ?]).
           by repeat match goal with H : eq_str cbt _ = false |- _ => rewrite H; clear H end.
  - intros l Hl.
    destruct (eq_str cbt "received"); [left; by inversion Hl |].
    destruct (if eq_str cbt "done" then _ else _) as [[] |]; cbn [mbind result_bind] in Hl;
      [left; by inversion Hl | | done].
    destruct (getitem d "side") as [side |]; [| done]. cbn [mbind result_bind] in Hl.
    destruct (side_of side) as [sd |]; [| done].
    destruct (d !! "price") as [price |]; [| left; by inversion Hl].
    repeat match type of Hl with
           | (if ?c then _ else _) = _ => destruct c
           | (?r ≫= _) = _ =>
               let H := fresh "H" in destruct r eqn:H; cbn [mbind result_bind] in Hl
           end;
      try discriminate; try (left; by inversion Hl).
    all: right; eexists; split; [by inversion Hl |].
    all: by cbn [mbind result_bind bm_rts bm_venue bm_symbol].
Qed.

End TranslatorProperties.

(* ===================================================================== *)
(** * The properties at work *)
(* ===================================================================== *)

Import Examples.

(** [submitOrder] on the acknowledged order 7. *)
Lemma submitOrder_already_processed_witness :
  heap (broker (trading LimitOrder)) !! 1%positive = Some (open_order LimitOrder)
  ∧ o_state (open_order LimitOrder) ≠ State.INITIAL
  ∧ submitOrder rt (venue "8") 1%positive (trading LimitOrder)
    = (Raise (Exception "The order was already processed"), trading LimitOrder).
Proof.
  split; [reflexivity |]. split; [discriminate |].
  apply (submitOrder_already_processed rt (venue "8") (trading LimitOrder) 1%positive
           (open_order LimitOrder)); [reflexivity | discriminate].
Defined.

(** Registering order 7 a second time. *)
Lemma register_unregister_fail_loudly_witness :
  heap (broker (trading LimitOrder)) !! 1%positive = Some (open_order LimitOrder)
  ∧ is_Some (registry_get_id (activeOrders (broker (trading LimitOrder)))
               (o_id (open_order LimitOrder)))
  ∧ _registerOrder 1%positive (trading LimitOrder)
    = (Raise AssertionError, trading LimitOrder).
Proof.
  split; [reflexivity |]. split; [by eexists |].
  apply (register_unregister_fail_loudly (trading LimitOrder) 1%positive
           (open_order LimitOrder)); [reflexivity | by eexists].
Defined.

(** A new limit order, placed at a venue that gives it the id 8. *)
Lemma submitOrder_initial_witness :
  heap (broker before_submit) !! 1%positive = Some (new_order LimitOrder)
  ∧ o_state (new_order LimitOrder) = State.INITIAL
  ∧ place_order_call (symbol (broker before_submit)) (new_order LimitOrder)
    = Some (CLimitOrder Bid 100 1 btcusd [GTC])
  ∧ ∃ w' o',
      submitOrder rt (venue "8") 1%positive before_submit = (Ok tt, w')
      ∧ heap (broker w') !! 1%positive = Some o'
      ∧ o_id o' = Some "8"
      ∧ o_state o' = State.SUBMITTED
      ∧ activeOrders (broker w') = {[ "8" := 1%positive ]}
      ∧ trace w' =
          [(ACall (CLimitOrder Bid 100 1 btcusd [GTC]),
            set_order 1%positive (overridden (new_order LimitOrder)) (broker before_submit));
           (AEmit (mkOrderEvent 1%positive (Some EventType.SUBMITTED) None), broker w')].
Proof.
  split; [reflexivity |]. split; [reflexivity |]. split; [reflexivity |].
  destruct (submitOrder_initial rt (venue "8") before_submit 1%positive
              (new_order LimitOrder) (CLimitOrder Bid 100 1 btcusd [GTC])
              eq_refl eq_refl eq_refl) as [Hplaced _].
  exact (Hplaced "8" eq_refl eq_refl).
Defined.

(** The same order, once submitted. *)
Lemma submitted_order_flags_witness :
  ∃ w',
    submitOrder rt (venue "8") 1%positive before_submit = (Ok tt, w')
    ∧ o_allOrNone (new_order LimitOrder) = true
    ∧ o_goodTillCanceled (new_order LimitOrder) = false
    ∧ ∃ t b o',
        trace w' = t ++ [(AEmit (mkOrderEvent 1%positive (Some EventType.SUBMITTED) None), b)]
        ∧ heap b !! 1%positive = Some o'
        ∧ o_allOrNone o' = false
        ∧ o_goodTillCanceled o' = true.
Proof.
  eexists. split; [vm_compute; reflexivity |]. split; [reflexivity |]. split; [reflexivity |].
  eapply (submitted_order_flags rt (venue "8") before_submit _ 1%positive).
  vm_compute. reflexivity.
Defined.


(** The fee of a fill of 0.4 @ 100 on a market order. *)
Lemma fees_spec_witness :
  o_class (open_order MarketOrder) ≠ LimitOrder
  ∧ match_price rt (fill "0.4") = Ok 100%float
  ∧ match_size rt (fill "0.4") = Ok 0.4%float
  ∧ fees rt (open_order MarketOrder) (fill "0.4") = Ok (0.0025 * 100 * 0.4)%float.
Proof.
  split; [discriminate |]. split; [reflexivity |]. split; [reflexivity |].
  destruct (fees_spec rt (open_order MarketOrder) (fill "0.4")) as [_ Hfee].
  apply Hfee; [discriminate | reflexivity | reflexivity].
Defined.


(** An open limit order becomes one [Increase] of the book. *)
Lemma toBookMessages_spec_witness :
  decode rt (Decoded open_message) = Ok open_message
  ∧ open_message !! "type" = Some (JStr "open")
  ∧ toBookMessages rt (Decoded open_message) "BTCUSD"
    = Ok [mkBookMessage Increase 501 VENUE "BTCUSD" 100 2 Bid]
  ∧ ([mkBookMessage Increase 501 VENUE "BTCUSD" 100 2 Bid] = []
     ∨ ∃ m, [mkBookMessage Increase 501 VENUE "BTCUSD" 100 2 Bid] = [m]
            ∧ (getitem open_message "sequence" ≫= py_int rt) = Ok (bm_rts m)
            ∧ bm_venue m = VENUE
            ∧ bm_symbol m = "BTCUSD").
Proof.
  split; [reflexivity |]. split; [reflexivity |]. split; [reflexivity |].
  destruct (toBookMessages_spec rt (Decoded open_message) "BTCUSD" open_message
              (JStr "open") eq_refl eq_refl) as (_ & _ & _ & Hshape).
  exact (Hshape _ eq_refl).
Defined.

(** ** Where the spec's sentences and the code part *)

(** C1: one order-status change, two events.  Order 7, acknowledged, asked
    for 1.0.  The venue reports it done, reason 'filled', with 0.5
    remaining: its id is registered and the new state is Canceled.
    [onChangeEvent] appends the execution of 0.5, which leaves the order
    PartiallyFilled, and emits a CANCELED event carrying the execution before
    the switch; it then switches the order to Canceled and emits a second
    CANCELED event, without execution, after the switch. *)
Theorem onChangeEvent_emits_twice :
  let w := trading LimitOrder in
  let run := onChangeEvent rt (venue "8") done_partly_filled w in
  change_id rt done_partly_filled = Ok (JStr "7")
  ∧ activeOrders (broker w) !! "7" = Some 1%positive
  ∧ change_new_state rt done_partly_filled = Ok (Some State.CANCELED)
  ∧ run.1 = Ok tt
  ∧ emitted (trace run.2)
    = [mkOrderEvent 1%positive (Some EventType.CANCELED) (Some done_partly_filled_oei);
       mkOrderEvent 1%positive (Some EventType.CANCELED) None]
  ∧ states_at_emission (trace run.2)
    = [Some State.PARTIALLY_FILLED; Some State.CANCELED].
Proof. vm_compute. repeat split. Qed.

(** C3, as stated, fails: the gateway accepts the new order and answers
    with the id 7, which the registry already has.  [submitOrder] raises
    [AssertionError]; the order is still Initial, it is not in the registry
    (order 7 is the other object) and no event was emitted. *)
Lemma submitOrder_duplicate_id :
  let w := trading_more in
  let run := submitOrder rt (venue "7") 2%positive w in
  (o_state <$> heap (broker w) !! 2%positive) = Some State.INITIAL
  ∧ place_order_answer (venue "7") (trace w) (symbol (broker w)) (new_order LimitOrder)
    = Ok (Some "7")
  ∧ run.1 = Raise AssertionError
  ∧ (o_state <$> heap (broker run.2) !! 2%positive) = Some State.INITIAL
  ∧ activeOrders (broker run.2) = {[ "7" := 1%positive ]}
  ∧ emitted (trace run.2) = [].
Proof. vm_compute. repeat split. Qed.


(** C10, as stated, fails: a message without a 'price' field whose side is
    unknown raises [ValueError] instead of giving the empty list, and a
    message of an unknown type without a 'price' field gives the empty list
    instead of raising [ValueError]. *)
Lemma toBookMessages_order_of_checks :
  (sideless_message !! "price" = None
   ∧ toBookMessages rt (Decoded sideless_message) "BTCUSD"
     = Raise (ValueError "Unknown side"))
  ∧ (heartbeat_message !! "type" = Some (JStr "heartbeat")
     ∧ known_type (JStr "heartbeat") = false
     ∧ toBookMessages rt (Decoded heartbeat_message) "BTCUSD" = Ok []).
Proof. vm_compute. repeat split. Qed.

(** The sibling path.  [applyUpdate] is given the same fact by the REST
    endpoint: order 7 is done, canceled after 0.5 of it was filled.  It
    appends the execution, switches the order to Canceled and then emits one
    CANCELED event. *)
Example applyUpdate_emits_once :
  let run := applyUpdate rt 1%positive (Some canceled_partly_filled) (trading LimitOrder) in
  run.1 = Ok tt
  ∧ emitted (trace run.2) = [mkOrderEvent 1%positive (Some EventType.CANCELED) None]
  ∧ states_at_emission (trace run.2) = [Some State.CANCELED]
  ∧ (o_executions <$> heap (broker run.2) !! 1%positive)
    = Some [done_partly_filled_oei].
Proof. vm_compute. repeat split. Qed.

(** Scenario B of the spec: a limit BUY of 1.0 @ 100 is submitted and
    acknowledged; a fill of 0.4 leaves it PartiallyFilled and registered; the
    fill of the remaining 0.6 leaves it Filled and out of the registry, and
    the balances were refreshed for each fill. *)
Example scenario_B :
  let venue := venue "7" in
  let w1 := (submitOrder rt venue 1%positive before_submit).2 in
  let ack : pydict := {[ "order_id" := JStr "7"; "type" := JStr "received" ]} in
  let w2 := (onChangeEvent rt venue ack w1).2 in
  let fill1 := _onUserTrade rt venue (fill "0.4") w2 in
  let fill2 := _onUserTrade rt venue (fill "0.6") fill1.2 in
  (o_state <$> heap (broker w1) !! 1%positive) = Some State.SUBMITTED
  ∧ (o_state <$> heap (broker w2) !! 1%positive) = Some State.ACCEPTED
  ∧ fill1.1 = Ok true
  ∧ (o_state <$> heap (broker fill1.2) !! 1%positive) = Some State.PARTIALLY_FILLED
  ∧ (o_filled <$> heap (broker fill1.2) !! 1%positive) = Some 0.4%float
  ∧ activeOrders (broker fill1.2) !! "7" = Some 1%positive
  ∧ fill2.1 = Ok true
  ∧ (o_state <$> heap (broker fill2.2) !! 1%positive) = Some State.FILLED
  ∧ activeOrders (broker fill2.2) !! "7" = None
  ∧ calls (trace fill2.2) = [CLimitOrder Bid 100 1 btcusd [GTC]; CBalances; CBalances]
  ∧ (ev_type <$> emitted (trace fill2.2))
    = [Some EventType.SUBMITTED; Some EventType.ACCEPTED;
       Some EventType.PARTIALLY_FILLED; Some EventType.FILLED].
Proof. vm_compute. repeat split. Qed.

(** A trade between orders of other accounts changes nothing. *)
Example onUserTrade_foreign_fill :
  _onUserTrade rt (venue "8") foreign_fill (trading LimitOrder)
  = (Ok false, trading LimitOrder).
Proof. vm_compute. reflexivity. Qed.

(** The venue refuses the new order: the error reaches the caller, the
    order is still Initial and unregistered, and no event was emitted. *)
Example submitOrder_refused_by_venue :
  let run := submitOrder rt venue_refusing_orders 1%positive before_submit in
  run.1 = Raise (RemoteError "400 Bad Request")
  ∧ (o_state <$> heap (broker run.2) !! 1%positive) = Some State.INITIAL
  ∧ activeOrders (broker run.2) = ∅
  ∧ emitted (trace run.2) = [].
Proof. vm_compute. repeat split. Qed.

(* ===================================================================== *)
(** * Further properties of the connector *)
(* ===================================================================== *)

(** ** What the handlers never do *)

Lemma settles_refl (b : Broker) : settles b b.
Proof. repeat split; eauto. Qed.

Lemma settles_trans (b1 b2 b3 : Broker) : settles b1 b2 → settles b2 b3 → settles b1 b3.
Proof.
  intros (H1 & H2 & H3) (H1' & H2' & H3'). repeat split.
  - intros l o Ho. destruct (H1 l o Ho) as (o' & Ho' & Hid).
    destruct (H1' l o' Ho') as (o'' & Ho'' & Hid'). exists o''. split; [done | congruence].
  - eauto.
  - congruence.
Qed.

Lemma settles_consistent (b b' : Broker) : settles b b' → consistent b → consistent b'.
Proof.
  intros (H1 & H2 & _) Hc i l Hl. destruct (Hc i l (H2 i l Hl)) as (o & Ho & Hid).
  destruct (H1 l o Ho) as (o' & Ho' & Hid'). exists o'. split; [done | congruence].
Qed.

Lemma settles_set_order (l : loc) (o o' : Order) (b : Broker) :
  heap b !! l = Some o → o_id o' = o_id o → settles b (set_order l o' b).
Proof.
  intros Ho Hid. repeat split; [| done].
  intros l0 o0 Ho0. cbn [set_order heap with_heap].
  destruct (decide (l0 = l)) as [-> | Hne].
  - exists o'. rewrite lookup_insert_eq. split; [done | congruence].
  - exists o0. by rewrite lookup_insert_ne.
Qed.

Lemma settles_del_active (i : OrderId) (b : Broker) : settles b (del_active i b).
Proof.
  repeat split; [by eauto |].
  intros i0 l. cbn [del_active activeOrders with_activeOrders].
  intros H. by apply lookup_delete_Some in H as [_ H].
Qed.

Lemma steps_ret {A} (a : A) : steps settles (mret a : M A).
Proof. intros w. apply settles_refl. Qed.

Lemma steps_bind {A B} (m : M A) (k : A → M B) :
  steps settles m → (∀ a, steps settles (k a)) → steps settles (m ≫= k).
Proof.
  intros Hm Hk w. rewrite run_bind. specialize (Hm w).
  destruct (m w) as [[a | e] w']; [| done].
  eapply settles_trans; [exact Hm | apply Hk].
Qed.

Lemma steps_lift {A} (r : result A) : steps settles (lift r).
Proof. intros w. apply settles_refl. Qed.

Lemma steps_raise {A} (e : exn) : steps settles (raise e : M A).
Proof. intros w. apply settles_refl. Qed.

Lemma steps_gets {A} (f : Broker → A) : steps settles (gets f).
Proof. intros w. apply settles_refl. Qed.

Lemma steps_record (a : Action) : steps settles (record a).
Proof. intros w. apply settles_refl. Qed.

Lemma steps_call {A} (c : Call) (answer : Trace → result A) : steps settles (call c answer).
Proof. intros w. apply settles_refl. Qed.

Lemma steps_modify (f : Broker → Broker) :
  (∀ b, settles b (f b)) → steps settles (modify f).
Proof. intros H w. apply H. Qed.

Lemma steps_getter {A} (f : Order → A) (l : loc) : steps settles (getter f l).
Proof.
  intros w. unfold getter, deref. rewrite run_bind.
  destruct (heap (broker w) !! l); apply settles_refl.
Qed.

Lemma steps_deref (l : loc) : steps settles (deref l).
Proof. intros w. unfold deref. destruct (heap (broker w) !! l); apply settles_refl. Qed.

Lemma steps_switchState (l : loc) (s : State.t) : steps settles (switchState l s).
Proof.
  intros w. unfold switchState, deref. rewrite run_bind.
  destruct (heap (broker w) !! l) as [o |] eqn:Ho; [| apply settles_refl].
  destruct (valid_transition (o_state o) s); [| apply settles_refl].
  by apply (settles_set_order l o).
Qed.

Lemma steps_addExecutionInfo (l : loc) (oei : OrderExecutionInfo) :
  steps settles (addExecutionInfo l oei).
Proof.
  unfold addExecutionInfo. intros w. rewrite run_bind. unfold deref at 1.
  destruct (heap (broker w) !! l) as [o |] eqn:Ho; [| apply settles_refl].
  rewrite run_bind. unfold assign, modify. cbn [broker trace].
  eapply settles_trans; [by apply (settles_set_order l o (with_execution oei o)) |].
  destruct (fully_filled _);
    exact (steps_switchState l _ (mkWorld (set_order l (with_execution oei o) (broker w)) (trace w))).
Qed.

Lemma steps_unregisterOrder (l : loc) : steps settles (_unregisterOrder l).
Proof.
  intros w. destruct (unregisterOrder_cases l w) as [[e ->] | [i ->]].
  - apply settles_refl.
  - apply settles_del_active.
Qed.

Section Invariants.

Context (rt : Runtime) (env : Collaborators).

Lemma steps_refreshAccountBalance : steps settles (refreshAccountBalance rt env).
Proof.
  intros w. destruct (gw_balances env (trace w)) as [bal | e] eqn:Hb.
  - rewrite (run_refreshAccountBalance rt env w bal) by done. repeat split; eauto.
  - rewrite (run_refreshAccountBalance_down rt env w e) by done. repeat split; eauto.
Qed.

(** Apply the rules above along a method. *)
Ltac steps :=
  repeat first
    [ apply steps_ret | apply steps_lift | apply steps_raise | apply steps_gets
    | apply steps_record | apply steps_call | apply steps_getter | apply steps_deref
    | apply steps_switchState | apply steps_addExecutionInfo
    | apply steps_unregisterOrder | apply steps_refreshAccountBalance
    | apply steps_bind; [| intros ?]
    | match goal with
      | |- steps _ (if ?c then _ else _) => destruct c
      | |- steps _ (match ?x with _ => _ end) => destruct x
      end ].

Lemma steps_onUserTrade (j : pydict) : steps settles (_onUserTrade rt env j).
Proof. unfold _onUserTrade, notifyOrderEvent, skip. steps. Qed.

Lemma steps_onChangeEvent (j : pydict) : steps settles (onChangeEvent rt env j).
Proof. unfold onChangeEvent, notifyOrderEvent, skip. steps. Qed.

Lemma steps_applyUpdate (order : loc) (cborder : option pydict) :
  steps settles (applyUpdate rt order cborder).
Proof. unfold applyUpdate, notifyOrderEvent, skip. steps. Qed.

Lemma steps_cancelOrder (order : loc) : steps settles (cancelOrder env order).
Proof. unfold cancelOrder, httpClient_cancelOrder. steps. Qed.

(** X1.  The handlers of trades and of order-status changes, [applyUpdate] and
    [cancelOrder], however they end: no order object is lost, no order
    changes its id, nothing is added to the registry.  So a registry whose
    every id leads to an order carrying that id stays such. *)
Theorem handlers_register_nothing (w : World) (j : pydict) (order : loc)
    (cborder : option pydict) :
  let after_trade := broker (_onUserTrade rt env j w).2 in
  let after_change := broker (onChangeEvent rt env j w).2 in
  let after_update := broker (applyUpdate rt order cborder w).2 in
  let after_cancel := broker (cancelOrder env order w).2 in
  (settles (broker w) after_trade ∧ settles (broker w) after_change
   ∧ settles (broker w) after_update ∧ settles (broker w) after_cancel)
  ∧ (consistent (broker w) →
     consistent after_trade ∧ consistent after_change
     ∧ consistent after_update ∧ consistent after_cancel).
Proof.
  pose proof (steps_onUserTrade j w) as H1.
  pose proof (steps_onChangeEvent j w) as H2.
  pose proof (steps_applyUpdate order cborder w) as H3.
  pose proof (steps_cancelOrder order w) as H4.
  cbn zeta. split; [done |]. intros Hc.
  repeat split; eapply settles_consistent; eauto.
Qed.

End Invariants.

(** ** What startup and submission keep *)

Lemma keeps_ret (I : Broker → Prop) {A} (a : A) : keeps I (mret a : M A).
Proof. by intros w. Qed.

Lemma keeps_bind (I : Broker → Prop) {A B} (m : M A) (k : A → M B) :
  keeps I m → (∀ a, keeps I (k a)) → keeps I (m ≫= k).
Proof.
  intros Hm Hk w HI. rewrite run_bind. specialize (Hm w HI).
  destruct (m w) as [[a | e] w']; [| done]. by apply Hk.
Qed.

Lemma keeps_gets (I : Broker → Prop) {A} (f : Broker → A) : keeps I (gets f).
Proof. by intros w. Qed.

Lemma keeps_call (I : Broker → Prop) {A} (c : Call) (answer : Trace → result A) :
  keeps I (call c answer).
Proof. by intros w. Qed.

Lemma keeps_modify (I : Broker → Prop) (f : Broker → Broker) :
  (∀ b, I b → I (f b)) → keeps I (modify f).
Proof. intros H w. apply H. Qed.

Lemma keeps_for_each (I : Broker → Prop) {A} (xs : list A) (body : A → M unit) :
  (∀ x, keeps I (body x)) → keeps I (for_each xs body).
Proof.
  intros H. induction xs as [| x xs IH]; cbn [for_each]; [apply keeps_ret |].
  apply keeps_bind; [apply H | by intros _].
Qed.

Lemma grown_with_stop (a : gmap OrderId loc) (s : bool) (b : Broker) :
  grown_from a b → grown_from a (with_stop s b).
Proof. done. Qed.

Lemma keeps_alloc (a : gmap OrderId loc) (o : Order) : keeps (grown_from a) (alloc o).
Proof.
  intros w [Hc Ha]. unfold alloc. cbn [snd broker].
  set (l := fresh (dom (heap (broker w)))).
  assert (heap (broker w) !! l = None) as Hl by (apply not_elem_of_dom, is_fresh).
  split; [| done]. intros i l0 Hi. destruct (Hc i l0 Hi) as (o0 & Ho0 & Hid).
  exists o0. split; [| done]. cbn [set_order heap with_heap].
  rewrite lookup_insert_ne; [done | congruence].
Qed.

Lemma keeps_alloc_all (a : gmap OrderId loc) (os : list Order) :
  keeps (grown_from a) (alloc_all os).
Proof.
  induction os as [| o os IH]; cbn [alloc_all]; [apply keeps_ret |].
  apply keeps_bind; [apply keeps_alloc | intros l].
  apply keeps_bind; [apply IH | intros ls; apply keeps_ret].
Qed.

Lemma keeps_registerOrder (a : gmap OrderId loc) (l : loc) :
  keeps (grown_from a) (_registerOrder l).
Proof.
  intros w [Hc Ha].
  destruct (registerOrder_cases l w) as [[e ->] | (o & i & Ho & Hid & Hn & ->)]; [done |].
  cbn [snd broker]. split.
  - intros i0 l0. cbn [set_active activeOrders with_activeOrders heap].
    destruct (decide (i0 = i)) as [-> | Hne].
    + rewrite lookup_insert_eq. intros [= <-]. by exists o.
    + rewrite lookup_insert_ne by done. apply Hc.
  - cbn [set_active activeOrders with_activeOrders].
    etrans; [exact Ha |]. by apply insert_subseteq.
Qed.

Section Growth.

Context (rt : Runtime) (env : Collaborators).

Lemma keeps_refreshAccountBalance (a : gmap OrderId loc) :
  keeps (grown_from a) (refreshAccountBalance rt env).
Proof.
  intros w HI. destruct (gw_balances env (trace w)) as [bal | e] eqn:Hb.
  - by rewrite (run_refreshAccountBalance rt env w bal).
  - by rewrite (run_refreshAccountBalance_down rt env w e).
Qed.

(** X2.  [start], however it ends, leaves every order that was registered in the
    registry, under the same id; and a registry whose every id leads to an
    order carrying that id is such again afterwards, the open orders of the
    venue included. *)
Theorem start_keeps_registry (w : World) :
  consistent (broker w) →
  let b' := broker (start rt env w).2 in
  consistent b' ∧ activeOrders (broker w) ⊆ activeOrders b'.
Proof.
  intros Hc.
  enough (keeps (grown_from (activeOrders (broker w))) (start rt env)) as H
    by (apply H; by split).
  unfold start, refreshOpenOrders, _startTradeMonitor, httpClient_OpenOrders,
    tradeMonitor_start.
  repeat first
    [ apply keeps_refreshAccountBalance | apply keeps_gets | apply keeps_call
    | apply keeps_alloc_all | apply keeps_for_each; intros ?
    | apply keeps_registerOrder
    | apply keeps_modify; intros ?; apply grown_with_stop
    | apply keeps_bind; [| intros ?] ].
Qed.

End Growth.

Section Submission.

Context (rt : Runtime) (env : Collaborators).

(** The brokers [submitOrder] can leave: the one it found; that one with the
    submitted order rewritten; or that one with the order rewritten to carry
    an id that was free, and registered under it. *)
Lemma submitOrder_outcomes (w : World) (order : loc) :
  let b' := broker (submitOrder rt env order w).2 in
  b' = broker w
  ∨ (∃ o', is_Some (heap (broker w) !! order) ∧ b' = set_order order o' (broker w))
  ∨ (∃ o' i, activeOrders (broker w) !! i = None ∧ o_id o' = Some i
             ∧ b' = set_order order o' (set_active i order (broker w))).
Proof.
  cbn zeta.
  destruct (heap (broker w) !! order) as [o|] eqn:Ho; cycle 1.
  { left. unfold submitOrder, getter, deref. by rewrite !run_bind, Ho. }
  destruct (decide (o_state o = State.INITIAL)) as [Hs | Hs]; cycle 1.
  { left. unfold submitOrder. rewrite run_bind, (run_getter _ order o) by done.
    unfold isInitial. by rewrite bool_decide_eq_false_2. }
  destruct (place_order_call (symbol (broker w)) o) as [c|] eqn:Hc; cycle 1.
  { right. left. exists (overridden o). split; [done |].
    unfold submitOrder. mstep. unfold isInitial. rewrite bool_decide_eq_true_2 by done.
    unfold setAllOrNone, setGoodTillCanceled. do 5 mstep.
    rewrite set_order_twice. fold (overridden o). mgets.
    unfold place_order_call in Hc.
    change (getType (overridden o)) with (getType o).
    rewrite run_bind.
    destruct (getType o); try discriminate;
      by rewrite !bool_decide_eq_false_2 by done. }
  rewrite (run_submitOrder rt env w order o c) by done. cbn zeta.
  destruct (place_order_answer env (trace w) (symbol (broker w)) o) as [newOrderId | e];
    cycle 1.
  { right. left. exists (overridden o). by split. }
  unfold setSubmitted. mstep. rewrite set_order_twice.
  set (o1 := with_submitted newOrderId (datetime_now rt) (overridden o)).
  rewrite run_bind.
  set (w1 := mkWorld (set_order order o1 (broker w)) _).
  destruct (registerOrder_cases order w1) as [[e ->] | (o2 & i & Ho2 & Hid & Hn & ->)].
  { right. left. exists o1. by split. }
  assert (o2 = o1) as -> by (subst w1; cbn in Ho2; rewrite lookup_insert_eq in Ho2; congruence).
  right. right. exists (with_state State.SUBMITTED o1), i.
  split; [done |]. split; [done |].
  rewrite run_bind. erewrite (run_switchState order _ o1); [| lookup_heap |].
  - unfold notifyOrderEvent, record, logged. cbn [snd broker trace]. subst w1.
    unfold set_active, set_order. cbn. by rewrite insert_insert_eq.
  - subst o1. cbn. by rewrite Hs.
Qed.

(** X3.  [submitOrder], however it ends, on an order that is not in the
    registry: the registry keeps every entry it had and gains at most one,
    the submitted order under an id that was free; and a registry whose
    every id leads to an order carrying that id is such again afterwards. *)
Theorem submitOrder_keeps_registry (w : World) (order : loc) :
  consistent (broker w) →
  (∀ i, activeOrders (broker w) !! i ≠ Some order) →
  let b' := broker (submitOrder rt env order w).2 in
  consistent b'
  ∧ (activeOrders b' = activeOrders (broker w)
     ∨ ∃ i, activeOrders (broker w) !! i = None
            ∧ activeOrders b' = <[i := order]> (activeOrders (broker w))).
Proof.
  intros Hc Hfree. cbn zeta.
  assert (∀ o', consistent (set_order order o' (broker w))) as Hset.
  { intros o' i l Hl. cbn [set_order activeOrders with_heap heap] in *.
    destruct (Hc i l Hl) as (o & Ho & Hid). exists o. split; [| done].
    rewrite lookup_insert_ne; [done |]. intros ->. by apply (Hfree i). }
  destruct (submitOrder_outcomes w order)
    as [-> | [(o' & _ & ->) | (o' & i & Hn & Hid & ->)]].
  - split; [done | by left].
  - split; [apply Hset | by left].
  - split; [| right; by exists i].
    intros i0 l. cbn [set_order set_active activeOrders with_heap with_activeOrders heap].
    destruct (decide (i0 = i)) as [-> | Hne].
    + rewrite lookup_insert_eq. intros [= <-]. exists o'. by rewrite lookup_insert_eq.
    + rewrite lookup_insert_ne by done. intros Hl. by apply (Hset o' i0 l).
Qed.

End Submission.

(** ** Order-status changes, in full *)

Section Changes.

Context (rt : Runtime) (env : Collaborators).


(** X4.  [onChangeEvent] ignores a change whose order id is not in the registry,
    and a change whose type is neither 'received' nor 'done': it returns and
    the world is as before. *)
Theorem onChangeEvent_ignores (w : World) (j : pydict) (order_id : jval) :
  change_id rt j = Ok order_id →
  registry_get (activeOrders (broker w)) order_id = None
  ∨ change_new_state rt j = Ok None →
  onChangeEvent rt env j w = (Ok tt, w).
Proof.
  intros Hid H. unfold onChangeEvent. mlift Hid. mgets.
  destruct (registry_get (activeOrders (broker w)) order_id) as [order |] eqn:Hr; [| done].
  destruct H as [? | Hnew]; [done |]. by mlift Hnew.
Qed.


(** X6.  A change that carries an execution of its own.  When the execution
    leaves the order in the state the change announces, one event is
    emitted, carrying the execution.  When it leaves the order in another
    state, from which the announced one can be reached, two events of the
    change's type are emitted: the first carries the execution and finds the
    order in the state the execution left it in, the second carries none and
    finds the order in the announced state. *)
Theorem onChangeEvent_with_execution (w : World) (j : pydict) (i : OrderId)
    (order : loc) (o : Order) (newstate : State.t) (event_type : option EventType.t)
    (e : OrderExecutionInfo) :
  change_id rt j = Ok (JStr i) →
  activeOrders (broker w) !! i = Some order →
  change_new_state rt j = Ok (Some newstate) →
  heap (broker w) !! order = Some o →
  change_oei rt j o = Ok (Some e) →
  change_event_type rt j = Ok event_type →
  let executed := state_after (with_execution e o) in
  valid_transition (o_state o) executed = true →
  let run := onChangeEvent rt env j w in
  (newstate = executed →
   emitted (trace run.2) = emitted (trace w) ++ [mkOrderEvent order event_type (Some e)]
   ∧ states_at_emission (trace run.2) = states_at_emission (trace w) ++ [Some newstate])
  ∧ (newstate ≠ executed →
     valid_transition executed newstate = true →
     emitted (trace run.2)
     = emitted (trace w) ++
         [mkOrderEvent order event_type (Some e); mkOrderEvent order event_type None]
     ∧ states_at_emission (trace run.2)
       = states_at_emission (trace w) ++ [Some executed; Some newstate]).
Proof.
  intros Hid Hreg Hnew Ho Hoei Hety executed Hv run.
  set (o1 := with_state executed (with_execution e o)).
  (* the housekeeping adds calls only *)
  assert (∀ w0, ∃ t,
    trace ((active ← getter isActive order;
            if negb (active : bool)
            then _unregisterOrder order ;; refreshAccountBalance rt env
            else skip) w0).2 = trace w0 ++ t
    ∧ emitted t = [] ∧ states_at_emission t = []) as Htail.
  { intros w0. rewrite run_bind. unfold getter, deref. rewrite run_bind.
    destruct (heap (broker w0) !! order) as [o0 |]; [| exists []; by rewrite app_nil_r].
    rewrite run_ret. destruct (isActive o0); cbn [negb].
    - exists []. by rewrite app_nil_r.
    - rewrite run_bind.
      destruct (unregisterOrder_cases order w0) as [[x ->] | [i' ->]];
        [exists []; by rewrite app_nil_r |].
      destruct (gw_balances env (trace w0)) as [bal | x] eqn:Hbal.
      + rewrite (run_refreshAccountBalance rt env _ bal) by done. by eexists.
      + rewrite (run_refreshAccountBalance_down rt env _ x) by done. by eexists. }
  assert (∀ (t0 t : Trace), emitted t = [] → states_at_emission t = [] →
          emitted (t0 ++ t) = emitted t0 ∧ states_at_emission (t0 ++ t) = states_at_emission t0)
    as Happ.
  { intros t0 t He Hs. unfold emitted, states_at_emission in *.
    by rewrite !omap_app, He, Hs, !app_nil_r. }
  split.
  - intros ->.
    assert (∃ t, trace run.2
                 = (trace w ++ [(AEmit (mkOrderEvent order event_type (Some e)),
                                 set_order order o1 (broker w))]) ++ t
                 ∧ emitted t = [] ∧ states_at_emission t = []) as (t & -> & He & Hs).
    { subst run. unfold onChangeEvent.
      mlift Hid. mgets. cbn [registry_get]. rewrite Hreg.
      mlift Hnew. mstep. mlift Hoei.
      do 2 rewrite run_bind. erewrite (run_addExecutionInfo order e o) by done.
      fold executed o1. mstep. cbn [o_state o1 with_state].
      rewrite bool_decide_eq_true_2 by done. cbn [negb]. rewrite run_ret. mstep.
      cbn [o_state o1 with_state]. rewrite bool_decide_eq_true_2 by done. cbn [negb].
      rewrite run_bind. unfold skip at 1. rewrite run_ret. mlift Hety.
      rewrite run_bind. unfold notifyOrderEvent, record, logged. cbn [broker trace].
      apply Htail. }
    destruct (Happ (trace w ++ [(AEmit (mkOrderEvent order event_type (Some e)),
                                 set_order order o1 (broker w))]) t He Hs) as [-> ->].
    unfold emitted, states_at_emission. rewrite !omap_app. cbn.
    by rewrite lookup_insert_eq.
  - intros Hne Hv2.
    set (o2 := with_state newstate o1).
    assert (∃ t, trace run.2
                 = (trace w ++ [(AEmit (mkOrderEvent order event_type (Some e)),
                                 set_order order o1 (broker w));
                                (AEmit (mkOrderEvent order event_type None),
                                 set_order order o2 (broker w))]) ++ t
                 ∧ emitted t = [] ∧ states_at_emission t = []) as (t & -> & He & Hs).
    { subst run. unfold onChangeEvent.
      mlift Hid. mgets. cbn [registry_get]. rewrite Hreg.
      mlift Hnew. mstep. mlift Hoei.
      do 2 rewrite run_bind. erewrite (run_addExecutionInfo order e o) by done.
      fold executed o1. mstep. cbn [o_state o1 with_state].
      rewrite bool_decide_eq_false_2 by done. cbn [negb]. mlift Hety.
      rewrite run_bind. unfold notifyOrderEvent at 1, record, logged. cbn [broker trace].
      rewrite run_ret. mstep. cbn [o_state o1 with_state].
      rewrite bool_decide_eq_false_2 by done. cbn [negb].
      rewrite run_bind. erewrite (run_switchState order newstate o1); [| lookup_heap | done].
      cbn [broker trace]. rewrite set_order_twice. fold o2. rewrite run_bind. unfold lift at 1.
      rewrite run_bind. unfold notifyOrderEvent, record, logged. cbn [broker trace].
      rewrite <- app_assoc. cbn [app]. apply Htail. }
    match goal with |- context [(?t0 ++ t)] => destruct (Happ t0 t He Hs) as [-> ->] end.
    unfold emitted, states_at_emission. rewrite !omap_app. cbn.
    by rewrite !lookup_insert_eq.
Qed.

End Changes.

(** ** wsclient.py: what a message tells *)

Section Messages.

Context (rt : Runtime).

(** X7.  What [OrderStateChange.__parse] makes of a message it accepts: the id is
    the message's 'order_id'; the new state and the event type go together,
    and are none at all, ACCEPTED, FILLED or CANCELED, never another; and
    the change announces FILLED exactly when the message is a 'done' whose
    reason is 'filled' and whose remaining size is the string '0'. *)
Theorem parse_pairs (j : pydict) (p : Parsed) :
  parse rt j = Ok p →
  j !! "order_id" = Some (p_id p)
  ∧ ((p_new_state p, p_event_type p) = (None, None)
     ∨ (p_new_state p, p_event_type p) = (Some State.ACCEPTED, Some EventType.ACCEPTED)
     ∨ (p_new_state p, p_event_type p) = (Some State.FILLED, Some EventType.FILLED)
     ∨ (p_new_state p, p_event_type p) = (Some State.CANCELED, Some EventType.CANCELED))
  ∧ (p_new_state p = Some State.FILLED
     ↔ j !! "type" = Some (JStr "done")
       ∧ j !! "reason" = Some (JStr "filled")
       ∧ j !! "remaining_size" = Some (JStr "0")).
Proof.
  unfold parse, getitem, dict_get. intros H.
  destruct (j !! "order_id") as [id |] eqn:Hid; [| done].
  destruct (j !! "type") as [mtype |] eqn:Ht; [| done].
  cbn [mbind result_bind] in H.
  assert (∃ se, (if eq_str mtype "received"
        then mret (Some State.ACCEPTED, Some EventType.ACCEPTED)
        else if eq_str mtype "done"
        then reason ← match j !! "reason" with
                      | Some v => Ok v | None => Raise (KeyError "reason") end;
             if eq_str reason "filled" && eq_str (default JNull (j !! "remaining_size")) "0"
             then mret (Some State.FILLED, Some EventType.FILLED)
             else mret (Some State.CANCELED, Some EventType.CANCELED)
        else mret (None, None)) = Ok se
      ∧ p_id p = id ∧ p_new_state p = se.1 ∧ p_event_type p = se.2) as (se & Hse & -> & -> & ->).
  { match type of H with context [mbind _ ?m] =>
      destruct m as [se | e] eqn:Hse; [| done] end.
    exists se. split; [done |]. cbn [mbind result_bind] in H.
    match type of H with context [mbind _ ?m] => destruct m; [| done] end.
    cbn in H. by inversion H. }
  clear H. split; [done |].
  destruct (eq_str mtype "received") eqn:Hrecv.
  { apply eq_str_true in Hrecv as ->. cbn in Hse; inversion Hse; subst se. cbn [fst snd].
    split; [auto |]. split; [done |]. intros (? & _). done. }
  destruct (eq_str mtype "done") eqn:Hdone; cycle 1.
  { cbn in Hse; inversion Hse; subst se. cbn [fst snd]. split; [auto |]. split; [done |].
    intros (? & _). by simplify_eq. }
  apply eq_str_true in Hdone as ->.
  destruct (j !! "reason") as [reason |] eqn:Hr; [| done]. cbn [mbind result_bind] in Hse.
  destruct (eq_str reason "filled") eqn:Hf; cbn [andb] in Hse.
  - apply eq_str_true in Hf as ->.
    destruct (j !! "remaining_size") as [rs |] eqn:Hrs; cbn in Hse.
    + destruct (eq_str rs "0") eqn:H0.
      * apply eq_str_true in H0 as ->. cbn in Hse; inversion Hse; subst se. cbn [fst snd].
        split; [auto |]. done.
      * cbn in Hse; inversion Hse; subst se. cbn [fst snd]. split; [auto |].
        split; [done |]. intros (_ & _ & ?). by simplify_eq.
    + cbn in Hse; inversion Hse; subst se. cbn [fst snd]. split; [auto |].
      split; [done |]. intros (_ & _ & ?). done.
  - cbn in Hse; inversion Hse; subst se. cbn [fst snd]. split; [auto |]. split; [done |].
    intros (_ & ? & _). by simplify_eq.
Qed.

(** What [involves] returns is [None] or an id of the list. *)
Lemma involves_registered (j : pydict) (oidlist : gset OrderId) (oid : jval) :
  involves j oidlist = Ok oid → oid = JNull ∨ ∃ s, oid = JStr s ∧ s ∈ oidlist.
Proof.
  unfold involves, getitem. intros H.
  destruct (j !! "a") as [a |]; [| done]. destruct (j !! "b") as [b |]; [| done].
  cbn [mbind result_bind] in H.
  destruct (key_in a oidlist) eqn:Ha; [| destruct (key_in b oidlist) eqn:Hb];
    cbn in H; inversion H; subst oid; [| | by left]; right.
  - destruct a; try discriminate. eexists. split; [done |]. by apply bool_decide_eq_true in Ha.
  - destruct b; try discriminate. eexists. split; [done |]. by apply bool_decide_eq_true in Hb.
Qed.

(** X8.  [BinanceMatch.involves] reads both ids before it looks at the list: a
    match without its 'a', or with it and without its 'b', raises
    [KeyError], whatever the list holds.  What it returns otherwise is
    [None] when neither id is in the list, and else an id of the match that
    is in the list, the 'a' one when both are. *)
Theorem involves_spec (j : pydict) (oidlist : gset OrderId) :
  (j !! "a" = None → involves j oidlist = Raise (KeyError "a"))
  ∧ (is_Some (j !! "a") → j !! "b" = None → involves j oidlist = Raise (KeyError "b"))
  ∧ (∀ a b, j !! "a" = Some a → j !! "b" = Some b →
       ∃ oid, involves j oidlist = Ok oid
         ∧ (key_in a oidlist = true → oid = a)
         ∧ (key_in a oidlist = false → key_in b oidlist = true → oid = b)
         ∧ (key_in a oidlist = false → key_in b oidlist = false → oid = JNull)
         ∧ (oid = JNull ∨ ∃ s, oid = JStr s ∧ s ∈ oidlist)).
Proof.
  unfold involves, getitem. split; [| split].
  - by intros ->.
  - intros [a ->] ->. done.
  - intros a b -> ->. cbn [mbind result_bind].
    destruct (key_in a oidlist) eqn:Ha; [| destruct (key_in b oidlist) eqn:Hb].
    + exists a. repeat split; try done. right.
      destruct a; try discriminate. eexists. split; [done |].
      by apply bool_decide_eq_true in Ha.
    + exists b. repeat split; try done. right.
      destruct b; try discriminate. eexists. split; [done |].
      by apply bool_decide_eq_true in Hb.
    + exists JNull. repeat split; try done. by left.
Qed.

End Messages.

(** ** livebroker.py: the trade queue *)

Section QueueProperties.

Context (rt : Runtime) (env : Collaborators).

(** The user-trade handler does not answer [False] for a match that names a
    registered order: it answers [True] or it raises. *)
Lemma onUserTrade_not_ignored (w : World) (j : pydict) (oid : jval) :
  involves j (dom (activeOrders (broker w))) = Ok oid →
  is_Some (registry_get (activeOrders (broker w)) oid) →
  (_onUserTrade rt env j w).1 ≠ Ok false.
Proof.
  intros Hinv [order Hreg].
  assert (∀ {A} (m : M A) (k : A → M bool),
            (∀ a w', (k a w').1 ≠ Ok false) → ∀ w', ((m ≫= k) w').1 ≠ Ok false) as Hbind.
  { intros A m k Hk w'. rewrite run_bind. destruct (m w') as [[a | e] w'']; [apply Hk | done]. }
  unfold _onUserTrade. mgets. mlift Hinv. mgets. rewrite Hreg.
  repeat (apply Hbind; intros). done.
Qed.

(** X9.  [onMatchEvent] followed by [dispatch].  On an empty queue, with the
    registry the same at both instants: either the match was not queued and
    the queue is still empty, or it is the one [dispatch] takes, and then
    [dispatch] answers what [_onUserTrade] answers on this match, which is
    not [False], and the queue is empty again.  In both cases the lag of the
    match is stored. *)
Theorem queued_match_is_handled (utcnow : datetime) (j : pydict) (box : Inbox)
    (w : World) (d : datetime) :
  userTradeQueue box = [] →
  match_datetime rt j = Ok d →
  let received := onMatchEvent rt utcnow j box (broker w) in
  match_lag received.2 = Some (utcnow - d)
  ∧ (userTradeQueue received.2 = []
     ∨ userTradeQueue received.2 = [j]
       ∧ received.1 = Ok tt
       ∧ let run := dispatch rt env received.2 w in
         run.1 = (_onUserTrade rt env j w).1
         ∧ run.1 ≠ Ok false
         ∧ userTradeQueue run.2.1 = []
         ∧ run.2.2 = (_onUserTrade rt env j w).2).
Proof.
  intros Hq Hd received. subst received. unfold onMatchEvent. rewrite Hd, Hq.
  destruct (involves j (dom (activeOrders (broker w)))) as [oid | e] eqn:Hinv;
    [| split; [done | by left]].
  destruct (truthy oid) eqn:Htr; [| split; [done | by left]].
  split; [done |]. right. cbn [fst snd userTradeQueue match_lag app].
  split; [done |]. split; [done |]. unfold dispatch. cbn [userTradeQueue fst snd].
  repeat split. apply (onUserTrade_not_ignored w j oid Hinv).
  destruct (involves_registered _ _ _ Hinv) as [-> | (s & -> & Hs)]; [done |].
  cbn [registry_get]. by apply elem_of_dom in Hs.
Qed.

(** X10.  A match whose time can be read and that names no registered order is
    not queued: the lag is stored and the queue is as before.  A match
    without its 'a' raises [KeyError] after the lag is stored, and is not
    queued either. *)
Theorem onMatchEvent_not_queued (utcnow : datetime) (j : pydict) (box : Inbox)
    (b : Broker) (d : datetime) :
  match_datetime rt j = Ok d →
  let received := onMatchEvent rt utcnow j box b in
  let stored := mkInbox (userTradeQueue box) (Some (utcnow - d)) in
  (j !! "a" = None → received = (Raise (KeyError "a"), stored))
  ∧ (∀ a b', j !! "a" = Some a → j !! "b" = Some b' →
       key_in a (dom (activeOrders b)) = false →
       key_in b' (dom (activeOrders b)) = false →
       received = (Ok tt, stored)).
Proof.
  intros Hd received stored. subst received stored.
  unfold onMatchEvent, involves, getitem. rewrite Hd. split.
  - by intros ->.
  - intros a b' -> -> Hka Hkb. cbn [mbind result_bind]. by rewrite Hka, Hkb.
Qed.

End QueueProperties.

(** ** netclients.py: the requests and the tables *)

(** X11.  What [BinanceRest.limitorder] posts.  The time in force is GTT when the
    flags have GTT; otherwise nothing when they have POST_ONLY, and else the
    first of GTC, IOC and FOK they have.  'post_only' is sent exactly with
    POST_ONLY and 'cancel_after' exactly with GTT, and then it is not
    [None].  The order and the repetitions of the flags do not matter. *)
Theorem limitorder_time_in_force (side : Side) (price size : float) (symbol : string)
    (flags : list Flag) (cancel_after : jval) (params : pydict) :
  limitorder_params side price size symbol flags cancel_after = Ok params →
  params !! "time_in_force"
  = (if bool_decide (GTT ∈ flags) then Some (JStr "GTT")
     else if bool_decide (POST_ONLY ∈ flags) then None
     else if bool_decide (GTC ∈ flags) then Some (JStr "GTC")
     else if bool_decide (IOC ∈ flags) then Some (JStr "IOC")
     else if bool_decide (FOK ∈ flags) then Some (JStr "FOK")
     else None)
  ∧ params !! "post_only"
    = (if bool_decide (POST_ONLY ∈ flags) then Some (JBool true) else None)
  ∧ params !! "cancel_after"
    = (if bool_decide (GTT ∈ flags) then Some cancel_after else None)
  ∧ (GTT ∈ flags → cancel_after ≠ JNull)
  ∧ ∀ flags', (∀ f, f ∈ flags ↔ f ∈ flags') →
      limitorder_params side price size symbol flags' cancel_after = Ok params.
Proof.
  intros H.
  assert (∀ flags', (∀ f, f ∈ flags ↔ f ∈ flags') →
            limitorder_params side price size symbol flags' cancel_after = Ok params) as Hset.
  { intros flags' Hf. rewrite <- H. unfold limitorder_params.
    by rewrite !(bool_decide_ext _ _ (Hf _)). }
  unfold limitorder_params in H.
  destruct (LOCAL_SYMBOL !! symbol) as [local |]; [| done]. cbn [mbind result_bind] in H.
  destruct (bool_decide (GTT ∈ flags)) eqn:Hgtt.
  - destruct cancel_after; try done; cbn [is_None mbind result_bind mret result_ret negb] in H;
      inversion H; subst params; clear H;
      (destruct (bool_decide (POST_ONLY ∈ flags));
       repeat split; first [by vm_compute | done | auto]).
  - cbn [mbind result_bind mret result_ret negb] in H. inversion H; subst params; clear H.
    apply bool_decide_eq_false in Hgtt.
    destruct (bool_decide (POST_ONLY ∈ flags)), (bool_decide (GTC ∈ flags)),
             (bool_decide (IOC ∈ flags)), (bool_decide (FOK ∈ flags));
      repeat split; first [by vm_compute | done | auto].
Qed.

(** X12.  [limitorder] and [marketorder] with a symbol the table does not have
    raise [KeyError], and [limitorder] with GTT and no cancel time raises
    [ValueError]: in both cases whatever the venue would have answered,
    since nothing is posted. *)
Theorem orders_refused_before_posting (post : pydict → result pydict) (side : Side)
    (price size : float) (symbol : string) (flags : list Flag) (cancel_after : jval) :
  (LOCAL_SYMBOL !! symbol = None →
   limitorder post side price size symbol flags cancel_after = Raise (KeyError symbol)
   ∧ marketorder post side size symbol = Raise (KeyError symbol))
  ∧ (is_Some (LOCAL_SYMBOL !! symbol) → GTT ∈ flags →
     limitorder post side price size symbol flags JNull
     = Raise (ValueError "No cancel time specified")).
Proof.
  unfold limitorder, marketorder, limitorder_params. split.
  - by intros ->.
  - intros [local ->] Hgtt. cbn [mbind result_bind].
    rewrite (bool_decide_eq_true_2 (GTT ∈ flags)) by done. reflexivity.
Qed.

(** The items of the inverted dictionary. *)
Lemma invert_items (l : list (string * string)) (v k : string) :
  foldl (λ acc kv, <[kv.2 := kv.1]> acc) (∅ : gmap string string) l !! v = Some k →
  (k, v) ∈ l.
Proof.
  induction l as [| [k0 v0] l IH] using rev_ind; [done |].
  rewrite foldl_app. cbn [foldl fst snd]. intros H.
  apply lookup_insert_Some in H as [[<- <-] | [_ H]].
  - apply elem_of_app. right. by apply list_elem_of_singleton.
  - apply elem_of_app. left. by apply IH.
Qed.

Lemma invert_items_injective (l : list (string * string)) (v k : string) :
  (∀ k1 k2 v', (k1, v') ∈ l → (k2, v') ∈ l → k1 = k2) →
  (k, v) ∈ l →
  foldl (λ acc kv, <[kv.2 := kv.1]> acc) (∅ : gmap string string) l !! v = Some k.
Proof.
  induction l as [| [k0 v0] l IH] using rev_ind; [by intros _ ?%elem_of_nil |].
  intros Hinj Hin. rewrite foldl_app. cbn [foldl fst snd].
  destruct (decide (v0 = v)) as [-> | Hne].
  - rewrite lookup_insert_eq. f_equal. apply (Hinj k0 k v); [| done].
    apply elem_of_app. right. by apply list_elem_of_singleton.
  - rewrite lookup_insert_ne by done. apply IH.
    + intros k1 k2 v' H1 H2. apply (Hinj k1 k2 v'); apply elem_of_app; by left.
    + apply elem_of_app in Hin as [Hin | Hin]; [done |].
      apply list_elem_of_singleton in Hin. by simplify_eq.
Qed.

(** X13.  The inverted table.  When no two keys of [d] have the same
    value, [invert d] sends a value to a key exactly when [d] sends that key
    to that value: every entry is found back, and nothing else is. *)
Theorem invert_round_trip (d : gmap string string) :
  (∀ k1 k2 v, d !! k1 = Some v → d !! k2 = Some v → k1 = k2) →
  ∀ k v, invert d !! v = Some k ↔ d !! k = Some v.
Proof.
  intros Hinj k v. unfold invert. split.
  - intros H. apply elem_of_map_to_list. by apply invert_items.
  - intros H. apply invert_items_injective.
    + intros k1 k2 v' H1%elem_of_map_to_list H2%elem_of_map_to_list. by apply (Hinj k1 k2 v').
    + by apply elem_of_map_to_list.
Qed.

(** X14.  [lazy_init]: once a call has given a value that is not [None], every
    later call gives this value and the decorated function is not invoked
    again.  A function that answers [None] is invoked again at every call:
    [None] is not cached. *)
Theorem lazy_init_caches (f : nat → result jval) (s s' : LazyInit) (v : jval) :
  lazy_call f s = (Ok v, s') →
  (is_None v = false → ∀ n, lazy_calls n f s' = (replicate n (Ok v), s'))
  ∧ (is_None v = true → (∀ k, f k = Ok JNull) →
     ∀ n, li_invocations (lazy_calls n f s').2 = (li_invocations s' + n)%nat).
Proof.
  intros Hcall.
  assert (li_val s' = v) as Hval.
  { unfold lazy_call in Hcall. destruct (is_None (li_val s)).
    - destruct (f (li_invocations s)); by inversion Hcall.
    - by inversion Hcall. }
  split.
  - intros Hv n.
    assert (lazy_call f s' = (Ok v, s')) as Hstep.
    { unfold lazy_call. by rewrite Hval, Hv. }
    induction n as [| n IH]; [done |].
    cbn [lazy_calls replicate]. by rewrite Hstep, IH.
  - intros Hv Hf n. clear Hcall. revert s' Hval.
    induction n as [| n IH]; intros s' Hval; [cbn; lia |].
    cbn [lazy_calls]. unfold lazy_call at 1. rewrite Hval, Hv, Hf.
    specialize (IH (mkLazy JNull (S (li_invocations s')))).
    destruct (lazy_calls n f (mkLazy JNull (S (li_invocations s')))) as [rs s''] eqn:Hrs.
    cbn [snd li_invocations] in *. rewrite IH; [lia |].
    destruct v; try discriminate. done.
Qed.

(** ** wsclient.py: incoming messages *)

Section WebSocketProperties.

Context (rt : Runtime).

(** X15.  A 'depthUpdate' message is given to [toBookMessages], which reads its
    'type' first: a depth update without this key raises [KeyError], and
    nothing is submitted to the synchronizer nor put in the queue. *)
Theorem onMessage_depthUpdate_needs_type (symbol : string) (m : pydict) :
  m !! "e" = Some (JStr "depthUpdate") →
  m !! "type" = None →
  onMessage rt symbol m = (Raise (KeyError "type"), []).
Proof.
  intros He Ht. unfold onMessage, toBookMessages, decode.
  rewrite (getitem_Some m "e" _ He). cbn [eq_str].
  rewrite bool_decide_eq_true_2 by done. cbn [mbind result_bind mret result_ret].
  unfold getitem. by rewrite Ht.
Qed.

(** X16.  A 'trade' message: the match is put in the queue before the bar is
    built, so it is there whether or not the bar can be built; the bar
    follows it exactly when [onMessage] returns, and then nothing else was
    asked.  The synchronizer is not called. *)
Theorem onMessage_trade_queues_match_first (symbol : string) (m : pydict) :
  m !! "e" = Some (JStr "trade") →
  let run := onMessage rt symbol m in
  match run.1 with
  | Ok _ => ∃ bar, match_TradeBar rt m = Ok bar
                   ∧ run.2 = [QueuePut (ON_MATCH m); QueuePut (ON_TRADE bar)]
  | Raise e => match_TradeBar rt m = Raise e ∧ run.2 = [QueuePut (ON_MATCH m)]
  end.
Proof.
  intros He run. subst run. unfold onMessage.
  rewrite (getitem_Some m "e" _ He). cbn [eq_str].
  rewrite bool_decide_eq_false_2 by done. rewrite bool_decide_eq_true_2 by done.
  destruct (match_TradeBar rt m) as [bar | e]; cbn [fst snd]; eauto.
Qed.

(** X17.  The bar of a trade: its four prices are the price of the match and its
    volume the size; it points DOWN exactly when the 'm' of the message is
    true for Python.  A message without 'p', 'q', 'm', 'T' or 'E' has no
    bar. *)
Theorem match_TradeBar_spec (m : pydict) (bar : TradeBar) :
  match_TradeBar rt m = Ok bar →
  match_price rt m = Ok (tb_open bar)
  ∧ tb_high bar = tb_open bar ∧ tb_low bar = tb_open bar ∧ tb_close bar = tb_open bar
  ∧ match_size rt m = Ok (tb_volume bar)
  ∧ match_datetime rt m = Ok (tb_dateTime bar)
  ∧ match_seq rt m = Ok (tb_seq bar)
  ∧ (∃ v, m !! "m" = Some v ∧ tb_direction bar = if truthy v then DOWN else UP)
  ∧ Forall (λ k, is_Some (m !! k)) ["p"; "q"; "m"; "T"; "E"].
Proof.
  unfold match_TradeBar. intros H.
  destruct (match_price rt m) as [price |] eqn:Hp; [| done].
  destruct (match_size rt m) as [volume |] eqn:Hq; [| done].
  cbn [mbind result_bind] in H.
  destruct (m !! "m") as [v |] eqn:Hm; [| unfold getitem in H; by rewrite Hm in H].
  rewrite (getitem_Some m "m" v Hm) in H. cbn [mbind result_bind] in H.
  destruct (match_datetime rt m) as [d |] eqn:Hd; [| done].
  destruct (match_seq rt m) as [seq |] eqn:Hs; [| done].
  cbn in H. inversion H; subst bar; clear H. cbn.
  repeat split; eauto.
  unfold match_price, match_size, match_datetime, match_seq, getitem in *.
  repeat constructor; eauto;
    repeat match goal with
           | H : context [m !! ?k] |- is_Some (m !! ?k) =>
               destruct (m !! k); [by eexists | discriminate]
           end.
Qed.

End WebSocketProperties.

(** ** livebroker.py: creating orders *)

Section CreateProperties.

Context (new_order : OrderClass → Action.t → option float → float → result Order)
        (traits : Symbol → result InstrumentTraits).

(** X18.  Let the constructors keep the action they are given.
    [createLimitOrder] and [createMarketOrder] give an order only for the
    broker's own instrument; the order they give is a BUY or a SELL, never
    a BUY_TO_COVER nor a SELL_SHORT, and it is a buy exactly when a BUY or a
    BUY_TO_COVER was asked for.  They never give [None]. *)
Theorem created_orders_buy_or_sell (self_symbol : Symbol) (action : Action.t)
    (instrument : Symbol) (limitPrice quantity : float) (onClose : bool)
    (r : option Order) :
  (∀ cls a p q o, new_order cls a p q = Ok o → o_action o = a) →
  createLimitOrder new_order traits self_symbol action instrument limitPrice quantity = Ok r
  ∨ createMarketOrder new_order traits self_symbol action instrument quantity onClose = Ok r →
  instrument = self_symbol
  ∧ ∃ o, r = Some o
         ∧ (o_action o = Action.BUY ∨ o_action o = Action.SELL)
         ∧ isBuy o = match action with
                     | Action.BUY | Action.BUY_TO_COVER => true
                     | _ => false
                     end.
Proof.
  intros new_order_action H. unfold createLimitOrder, createMarketOrder, _createOrder in H.
  destruct (decide (instrument = self_symbol)) as [-> | Hne]; cycle 1.
  { rewrite !bool_decide_eq_false_2 in H by done. cbn [negb] in H. by destruct H. }
  rewrite !(bool_decide_eq_true_2 (self_symbol = self_symbol)) in H by done.
  cbn [negb] in H. split; [done |].
  destruct (traits self_symbol) as [tr |]; [| by destruct H].
  cbn [mbind result_bind] in H.
  rewrite (bool_decide_eq_false_2 (LimitOrder = MarketOrder)),
    (bool_decide_eq_true_2 (LimitOrder = LimitOrder)),
    (bool_decide_eq_true_2 (MarketOrder = MarketOrder)) in H by done.
  assert (∃ cls p q o, new_order cls (normalize_action action) p q = Ok o ∧ r = Some o)
    as (cls & p & q & o & Hnew & ->).
  { destruct H as [H | H];
      match type of H with context [new_order ?c ?a ?p ?q] =>
        destruct (new_order c a p q) as [o |] eqn:Hnew; [| done];
        exists c, p, q, o; split; [done |]; cbn in H; by inversion H
      end. }
  exists o. split; [done |]. apply new_order_action in Hnew.
  unfold isBuy. rewrite Hnew. destruct action; cbn; auto.
Qed.

End CreateProperties.

(** ** livebroker.py: reading the broker after a refresh *)

Section ReadProperties.

Context (rt : Runtime) (env : Collaborators).

(** X19.  After a refresh that the gateway answered, [getCash] gives the balance
    of the cash currency rounded to two decimals, [getShares] gives the
    balance of the asset for the broker's instrument and 0 for every other
    instrument, whatever was held before, the positions are this one
    holding, and [eof] is false.  A currency the answer does not list counts
    for 0. *)
Theorem refresh_then_read (w : World) (bal : gmap string float) :
  gw_balances env (trace w) = Ok bal →
  let w' := (refreshAccountBalance rt env w).2 in
  let sym := symbol (broker w) in
  let asset := default 0%float (bal !! cc1 sym) in
  getCash w' = (Ok (py_round rt (default 0%float (bal !! cc2 sym)) 2), w')
  ∧ getShares sym w' = (Ok asset, w')
  ∧ (∀ other, other ≠ sym → getShares other w' = (Ok 0%float, w'))
  ∧ getPositions w' = (Ok [(sym, asset)], w')
  ∧ eof w' = (Ok false, w').
Proof.
  intros Hbal w' sym asset. subst w'.
  rewrite (run_refreshAccountBalance rt env w bal Hbal). cbn [snd].
  unfold getCash, getShares, getPositions, eof, gets. rewrite !run_bind.
  cbn [broker trace refreshed shares cash stop with_stop with_shares with_cash symbol].
  fold sym asset. split; [done |]. split; [| split; [| done]].
  - rewrite run_ret. cbn [filter list_filter]. by rewrite decide_True.
  - intros other Hne. rewrite run_bind, run_ret.
    cbn [broker refreshed shares with_stop with_shares with_cash filter list_filter fst].
    by rewrite decide_False.
Qed.

End ReadProperties.

(** ** livebroker.py: updates from an order's status *)

Section UpdateProperties.

Context (rt : Runtime) (env : Collaborators).


(** X21.  [applyUpdate] without a status, or with the status 'rejected'.  The
    order is unregistered first: an order the registry does not hold under
    its id fails the assertion and the world is as before.  Otherwise the
    order leaves the registry and no collaborator is called, the balances
    are not refreshed; if the order may go to Canceled it does and one
    CANCELED event is emitted, and if it may not the call raises with the
    order out of the registry, its state as it was and no event. *)
Theorem applyUpdate_rejected (w : World) (order : loc) (o : Order)
    (cborder : option pydict) :
  (∀ cb, cborder = Some cb → cb !! "status" = Some (JStr "rejected")) →
  heap (broker w) !! order = Some o →
  let run := applyUpdate rt order cborder w in
  (registered_under_id_of (broker w) order = None → run = (Raise AssertionError, w))
  ∧ (∀ i l, o_id o = Some i → activeOrders (broker w) !! i = Some l →
       activeOrders (broker run.2) = delete i (activeOrders (broker w))
       ∧ calls (trace run.2) = calls (trace w)
       ∧ if valid_transition (o_state o) State.CANCELED
         then run.1 = Ok tt
              ∧ emitted (trace run.2)
                = emitted (trace w) ++ [mkOrderEvent order (Some EventType.CANCELED) None]
              ∧ heap (broker run.2) !! order = Some (with_state State.CANCELED o)
         else is_ok run.1 = false
              ∧ emitted (trace run.2) = emitted (trace w)
              ∧ heap (broker run.2) !! order = Some o).
Proof.
  intros Hcb Ho run.
  assert (run = (_unregisterOrder order ;;
                 switchState order State.CANCELED ;;
                 notifyOrderEvent (mkOrderEvent order (Some EventType.CANCELED) None)) w)
    as ->.
  { subst run. unfold applyUpdate. destruct cborder as [cb |]; [| done].
    assert (getattr cb "status" = Ok (JStr "rejected")) as Hs
      by (unfold getattr; by rewrite (Hcb cb eq_refl)).
    mlift Hs. cbn [eq_str]. by rewrite bool_decide_eq_true_2. }
  split.
  - intros Hnone. unfold registered_under_id_of in Hnone. rewrite Ho in Hnone.
    cbn in Hnone. by rewrite run_bind, (run_unregisterOrder_refused order o).
  - intros i l Hid Hreg. rewrite run_bind, (run_unregisterOrder order l o i) by done.
    rewrite run_bind. unfold switchState. rewrite run_bind.
    rewrite (run_deref order o) by done. cbn [broker trace].
    destruct (valid_transition (o_state o) State.CANCELED).
    + unfold assign, modify, notifyOrderEvent, record, logged. cbn [fst snd broker trace].
      split; [done |].
      split; [unfold calls; rewrite omap_app; cbn; by rewrite app_nil_r |].
      split; [done |]. split; [unfold emitted; rewrite omap_app; by cbn |].
      lookup_heap.
    + unfold raise. cbn [fst snd broker trace]. done.
Qed.

(** X22.  The registry, written and read back: an order with an id that is free
    is registered under it and under no other id, and unregistering it then
    gives back the world as it was. *)
Theorem register_unregister_round_trip (w : World) (l : loc) (o : Order) (i : OrderId) :
  heap (broker w) !! l = Some o →
  o_id o = Some i →
  activeOrders (broker w) !! i = None →
  ∃ w1, _registerOrder l w = (Ok tt, w1)
        ∧ activeOrders (broker w1) !! i = Some l
        ∧ (∀ i', i' ≠ i → activeOrders (broker w1) !! i' = activeOrders (broker w) !! i')
        ∧ _unregisterOrder l w1 = (Ok tt, w).
Proof.
  intros Ho Hid Hfree. eexists. split; [by apply (run_registerOrder l o i) |].
  cbn [broker set_active activeOrders with_activeOrders].
  split; [by rewrite lookup_insert_eq |].
  split; [intros i' Hne; by rewrite lookup_insert_ne |].
  rewrite (run_unregisterOrder l l o i); [| done | done | lookup_heap].
  destruct w as [[] t]. unfold del_active, set_active. cbn in *.
  by rewrite delete_insert_id.
Qed.

End UpdateProperties.

(** ** netclients.py: the delta of a message *)

Section DeltaProperties.

Context (rt : Runtime).

(** X23.  When [toBookMessages] gives a delta, the message has a type, a side and
    a price: the type is 'done', 'open', 'match' or 'change'; the delta is
    an increase for 'open' and a decrease for the three others, never an
    assignment; its side is a bid for 'buy' and an ask for 'sell'; its price
    is the float of the message's price. *)
Theorem toBookMessages_delta (binance_json : BookInput) (symbol : string)
    (d : pydict) (m : BookMessage) :
  decode rt binance_json = Ok d →
  toBookMessages rt binance_json symbol = Ok [m] →
  ∃ cbt side price,
    d !! "type" = Some cbt ∧ d !! "side" = Some side ∧ d !! "price" = Some price
    ∧ known_type cbt = true
    ∧ bm_kind m = (if eq_str cbt "open" then Increase else Decrease)
    ∧ side_of side = Some (bm_side m)
    ∧ py_float rt price = Ok (bm_price m).
Proof.
  intros Hd H. unfold toBookMessages in H. rewrite Hd in H.
  unfold getitem, known_type in *. cbn [mbind result_bind] in H.
  destruct (d !! "type") as [cbt |] eqn:Ht; [| done]. cbn [mbind result_bind] in H.
  destruct (eq_str cbt "received"); [done |].
  match type of H with context [mbind _ ?md] =>
    destruct md as [market_done |]; [| done] end.
  cbn [mbind result_bind] in H. destruct market_done; [done |].
  destruct (d !! "side") as [side |] eqn:Hside; [| done]. cbn [mbind result_bind] in H.
  destruct (side_of side) as [sd |] eqn:Hsd; [| done].
  destruct (d !! "price") as [price |] eqn:Hprice; [| done].
  exists cbt, side, price. split; [done |]. split; [done |]. split; [done |].
  assert (∀ lit lit', lit ≠ lit' → eq_str cbt lit = true → eq_str cbt lit' = false) as Hne.
  { intros lit lit' Hl ->%eq_str_true. cbn. by rewrite bool_decide_eq_false_2. }
  destruct (eq_str cbt "done") eqn:Hdone;
    [rewrite (Hne "done" "open") by done |
     destruct (eq_str cbt "open") eqn:Hopen;
       [| destruct (eq_str cbt "match") eqn:Hmatch;
            [| destruct (eq_str cbt "change") eqn:Hchange; [| done]]]];
    cbn [orb]; (split; [done |]);
    repeat match type of H with
           | context [mbind _ ?x] =>
               destruct x eqn:?; [| done]; cbn [mbind result_bind] in H
           | context [if ?c then _ else _] => destruct c; [done |]
           end;
    cbn in H; inversion H; subst m; cbn; by repeat split.
Qed.

End DeltaProperties.

(* ===================================================================== *)
(** * The further properties at work *)
(* ===================================================================== *)

Import MoreExamples.

Lemma trading_consistent (cls : OrderClass) : consistent (broker (trading cls)).
Proof.
  intros i l H.
  change (({[ "7" := 1%positive ]} : gmap OrderId loc) !! i = Some l) in H.
  apply lookup_singleton_Some in H as [<- <-]. eexists. split; reflexivity.
Qed.

Lemma trading_more_consistent : consistent (broker trading_more).
Proof.
  intros i l H.
  change (({[ "7" := 1%positive ]} : gmap OrderId loc) !! i = Some l) in H.
  apply lookup_singleton_Some in H as [<- <-]. eexists. split; reflexivity.
Qed.

Lemma LOCAL_SYMBOL_injective (k1 k2 v : string) :
  LOCAL_SYMBOL !! k1 = Some v → LOCAL_SYMBOL !! k2 = Some v → k1 = k2.
Proof.
  unfold LOCAL_SYMBOL. intros H1 H2.
  apply lookup_insert_Some in H1 as [[<- <-] | [? [<- <-]%lookup_singleton_Some]];
    apply lookup_insert_Some in H2 as [[<- ?] | [? [<- ?]%lookup_singleton_Some]];
    done.
Qed.

(** [start] with order 7 registered, at a venue that has order 5 open. *)
Lemma start_keeps_registry_witness :
  let b' := broker (start rt venue_with_open_order (trading LimitOrder)).2 in
  consistent b' ∧ activeOrders (broker (trading LimitOrder)) ⊆ activeOrders b'.
Proof.
  exact (start_keeps_registry rt venue_with_open_order (trading LimitOrder)
           (trading_consistent LimitOrder)).
Defined.

(** A full fill of order 7 leaves a registry that is consistent. *)
Lemma handlers_register_nothing_witness :
  consistent (broker (_onUserTrade rt (venue "8") (fill "1") (trading LimitOrder)).2).
Proof.
  exact (proj1 (proj2 (handlers_register_nothing rt (venue "8") (trading LimitOrder)
                         (fill "1") 1%positive None)
                  (trading_consistent LimitOrder))).
Defined.

(** The fill of order 7 involves order 7. *)
Lemma involves_spec_witness :
  ∃ oid, involves (fill "0.4") {[ "7" ]} = Ok oid
         ∧ (key_in (JStr "7") {[ "7" ]} = true → oid = JStr "7")
         ∧ (key_in (JStr "7") {[ "7" ]} = false → key_in (JStr "9") {[ "7" ]} = true →
            oid = JStr "9")
         ∧ (key_in (JStr "7") {[ "7" ]} = false → key_in (JStr "9") {[ "7" ]} = false →
            oid = JNull)
         ∧ (oid = JNull ∨ ∃ s, oid = JStr s ∧ s ∈ ({[ "7" ]} : gset OrderId)).
Proof.
  destruct (involves_spec (fill "0.4") {[ "7" ]}) as (_ & _ & Hboth).
  apply (Hboth (JStr "7") (JStr "9")); reflexivity.
Defined.

(** An order for a symbol the table does not have. *)
Lemma orders_refused_before_posting_witness :
  limitorder (λ _, Ok ∅) Bid 100 1 "ETHUSD" [GTC] JNull = Raise (KeyError "ETHUSD")
  ∧ marketorder (λ _, Ok ∅) Bid 1 "ETHUSD" = Raise (KeyError "ETHUSD").
Proof.
  destruct (orders_refused_before_posting (λ _, Ok ∅) Bid 100 1 "ETHUSD" [GTC] JNull)
    as [Hunknown _].
  apply Hunknown. vm_compute. reflexivity.
Defined.

(** The new order of [trading_more], once it has the id 8. *)
Lemma register_unregister_round_trip_witness :
  ∃ w1, _registerOrder 2%positive trading_as_placed = (Ok tt, w1)
        ∧ activeOrders (broker w1) !! "8" = Some 2%positive
        ∧ (∀ i', i' ≠ "8" →
             activeOrders (broker w1) !! i' = activeOrders (broker trading_as_placed) !! i')
        ∧ _unregisterOrder 2%positive w1 = (Ok tt, trading_as_placed).
Proof.
  apply (register_unregister_round_trip trading_as_placed 2%positive
           (with_submitted (Some "8") 1500000000000000 (new_order LimitOrder)) "8");
    reflexivity.
Defined.

(** Submitting the new order while order 7 is registered. *)
Lemma submitOrder_keeps_registry_witness :
  let b' := broker (submitOrder rt (venue "8") 2%positive trading_more).2 in
  consistent b'
  ∧ (activeOrders b' = activeOrders (broker trading_more)
     ∨ ∃ i, activeOrders (broker trading_more) !! i = None
            ∧ activeOrders b' = <[i := 2%positive]> (activeOrders (broker trading_more))).
Proof.
  apply (submitOrder_keeps_registry rt (venue "8") trading_more 2%positive
           trading_more_consistent).
  intros i H.
  change (({[ "7" := 1%positive ]} : gmap OrderId loc) !! i = Some 2%positive) in H.
  apply lookup_singleton_Some in H as [_ ?]. discriminate.
Defined.

(** A change of an order of another account. *)
Lemma onChangeEvent_ignores_witness :
  onChangeEvent rt (venue "8") unknown_change (trading LimitOrder)
  = (Ok tt, trading LimitOrder).
Proof.
  apply (onChangeEvent_ignores rt (venue "8") (trading LimitOrder) unknown_change (JStr "3"));
    [vm_compute; reflexivity | left; vm_compute; reflexivity].
Defined.


(** Order 7 is done at the venue after half of it was filled. *)
Lemma onChangeEvent_with_execution_witness :
  let run := onChangeEvent rt (venue "8") done_partly_filled (trading LimitOrder) in
  emitted (trace run.2)
  = emitted (trace (trading LimitOrder)) ++
      [mkOrderEvent 1%positive (Some EventType.CANCELED) (Some done_partly_filled_oei);
       mkOrderEvent 1%positive (Some EventType.CANCELED) None]
  ∧ states_at_emission (trace run.2)
    = states_at_emission (trace (trading LimitOrder)) ++
        [Some State.PARTIALLY_FILLED; Some State.CANCELED].
Proof.
  destruct (onChangeEvent_with_execution rt (venue "8") (trading LimitOrder)
              done_partly_filled "7" 1%positive (open_order LimitOrder) State.CANCELED
              (Some EventType.CANCELED) done_partly_filled_oei)
    as [_ Htwice]; try (vm_compute; reflexivity).
  apply Htwice; [discriminate | reflexivity].
Defined.

(** What the 'done' message of order 7 parses to. *)
Lemma parse_pairs_witness :
  done_partly_filled !! "order_id" = Some (p_id done_partly_filled_parsed)
  ∧ ((p_new_state done_partly_filled_parsed, p_event_type done_partly_filled_parsed)
     = (None, None)
     ∨ (p_new_state done_partly_filled_parsed, p_event_type done_partly_filled_parsed)
       = (Some State.ACCEPTED, Some EventType.ACCEPTED)
     ∨ (p_new_state done_partly_filled_parsed, p_event_type done_partly_filled_parsed)
       = (Some State.FILLED, Some EventType.FILLED)
     ∨ (p_new_state done_partly_filled_parsed, p_event_type done_partly_filled_parsed)
       = (Some State.CANCELED, Some EventType.CANCELED))
  ∧ (p_new_state done_partly_filled_parsed = Some State.FILLED
     ↔ done_partly_filled !! "type" = Some (JStr "done")
       ∧ done_partly_filled !! "reason" = Some (JStr "filled")
       ∧ done_partly_filled !! "remaining_size" = Some (JStr "0")).
Proof.
  apply (parse_pairs rt done_partly_filled done_partly_filled_parsed).
  vm_compute. reflexivity.
Defined.

(** A fill of order 7 arrives half a second after the trade and is
    dispatched. *)
Lemma queued_match_is_handled_witness :
  let received :=
    onMatchEvent rt 1500000000500000 (fill "0.4") empty_inbox
      (broker (trading LimitOrder)) in
  match_lag received.2 = Some (1500000000500000 - 1500000000000000)
  ∧ (userTradeQueue received.2 = []
     ∨ userTradeQueue received.2 = [fill "0.4"]
       ∧ received.1 = Ok tt
       ∧ let run := dispatch rt (venue "8") received.2 (trading LimitOrder) in
         run.1 = (_onUserTrade rt (venue "8") (fill "0.4") (trading LimitOrder)).1
         ∧ run.1 ≠ Ok false
         ∧ userTradeQueue run.2.1 = []
         ∧ run.2.2 = (_onUserTrade rt (venue "8") (fill "0.4") (trading LimitOrder)).2).
Proof.
  apply (queued_match_is_handled rt (venue "8") 1500000000500000 (fill "0.4") empty_inbox
           (trading LimitOrder) 1500000000000000); vm_compute; reflexivity.
Defined.

(** A trade between two orders of other accounts. *)
Lemma onMatchEvent_not_queued_witness :
  onMatchEvent rt 1500000000500000 foreign_fill empty_inbox (broker (trading LimitOrder))
  = (Ok tt, mkInbox [] (Some (1500000000500000 - 1500000000000000))).
Proof.
  destruct (onMatchEvent_not_queued rt 1500000000500000 foreign_fill empty_inbox
              (broker (trading LimitOrder)) 1500000000000000) as [_ Hdropped];
    [vm_compute; reflexivity |].
  apply (Hdropped (JStr "3") (JStr "9")); vm_compute; reflexivity.
Defined.

(** The request [submitOrder] has the gateway send for a limit order. *)
Lemma limitorder_time_in_force_witness :
  gtc_request !! "time_in_force" = Some (JStr "GTC")
  ∧ gtc_request !! "post_only" = None
  ∧ gtc_request !! "cancel_after" = None.
Proof.
  destruct (limitorder_time_in_force Bid 100 1 BTCUSD [GTC] JNull gtc_request)
    as (Htif & Hpost & Hafter & _); [vm_compute; reflexivity |].
  split; [exact Htif |]. split; [exact Hpost | exact Hafter].
Defined.

(** The local name 'BTC-EUR' is the one of BTCEUR. *)
Lemma invert_round_trip_witness : SYMBOL_LOCAL !! "BTC-EUR" = Some BTCEUR.
Proof.
  apply (invert_round_trip LOCAL_SYMBOL LOCAL_SYMBOL_injective BTCEUR "BTC-EUR").
  vm_compute. reflexivity.
Defined.

(** Three more calls after the first one answered 0. *)
Lemma lazy_init_caches_witness :
  lazy_calls 3 counting (mkLazy (JInt 0) 1)
  = (replicate 3 (Ok (JInt 0)), mkLazy (JInt 0) 1).
Proof.
  exact (proj1 (lazy_init_caches counting (mkLazy JNull 0) (mkLazy (JInt 0) 1) (JInt 0)
                  eq_refl) eq_refl 3%nat).
Defined.

(** A depth update as Binance sends it. *)
Lemma onMessage_depthUpdate_needs_type_witness :
  onMessage rt "BTCUSD" depth_message = (Raise (KeyError "type"), []).
Proof.
  apply (onMessage_depthUpdate_needs_type rt "BTCUSD" depth_message); vm_compute; reflexivity.
Defined.

(** A trade as Binance sends it. *)
Lemma onMessage_trade_queues_match_first_witness :
  let run := onMessage rt "BTCUSD" trade_message in
  match run.1 with
  | Ok _ => ∃ bar, match_TradeBar rt trade_message = Ok bar
                   ∧ run.2 = [QueuePut (ON_MATCH trade_message); QueuePut (ON_TRADE bar)]
  | Raise e => match_TradeBar rt trade_message = Raise e
               ∧ run.2 = [QueuePut (ON_MATCH trade_message)]
  end.
Proof.
  apply (onMessage_trade_queues_match_first rt "BTCUSD" trade_message).
  vm_compute. reflexivity.
Defined.

(** The bar of that trade. *)
Lemma match_TradeBar_spec_witness :
  match_price rt trade_message = Ok (tb_open trade_bar)
  ∧ tb_high trade_bar = tb_open trade_bar
  ∧ tb_low trade_bar = tb_open trade_bar
  ∧ tb_close trade_bar = tb_open trade_bar
  ∧ match_size rt trade_message = Ok (tb_volume trade_bar)
  ∧ match_datetime rt trade_message = Ok (tb_dateTime trade_bar)
  ∧ match_seq rt trade_message = Ok (tb_seq trade_bar)
  ∧ (∃ v, trade_message !! "m" = Some v
          ∧ tb_direction trade_bar = if truthy v then DOWN else UP)
  ∧ Forall (λ k, is_Some (trade_message !! k)) ["p"; "q"; "m"; "T"; "E"].
Proof.
  apply (match_TradeBar_spec rt trade_message trade_bar). vm_compute. reflexivity.
Defined.

(** A short sale of 1.0 @ 100 is created as a SELL. *)
Lemma created_orders_buy_or_sell_witness :
  btcusd = btcusd
  ∧ ∃ o, Some (mkOrder LimitOrder None Action.SELL 100 1 0 0 State.INITIAL [] false false None)
         = Some o
         ∧ (o_action o = Action.BUY ∨ o_action o = Action.SELL)
         ∧ isBuy o = false.
Proof.
  apply (created_orders_buy_or_sell initial_order (λ _, Ok exact_traits) btcusd
           Action.SELL_SHORT btcusd 100 1 false).
  - intros cls a p q o H. inversion H. reflexivity.
  - left. vm_compute. reflexivity.
Defined.

(** The balances of the venue, read back. *)
Lemma refresh_then_read_witness :
  let w' := (refreshAccountBalance rt (venue "8") (trading LimitOrder)).2 in
  let sym := symbol (broker (trading LimitOrder)) in
  let asset := default 0%float (balances !! cc1 sym) in
  getCash w' = (Ok (py_round rt (default 0%float (balances !! cc2 sym)) 2), w')
  ∧ getShares sym w' = (Ok asset, w')
  ∧ (∀ other, other ≠ sym → getShares other w' = (Ok 0%float, w'))
  ∧ getPositions w' = (Ok [(sym, asset)], w')
  ∧ eof w' = (Ok false, w').
Proof.
  apply (refresh_then_read rt (venue "8") (trading LimitOrder) balances). reflexivity.
Defined.


(** The REST endpoint knows nothing of order 7. *)
Lemma applyUpdate_rejected_witness :
  let run := applyUpdate rt 1%positive None (trading LimitOrder) in
  activeOrders (broker run.2) = delete "7" (activeOrders (broker (trading LimitOrder)))
  ∧ calls (trace run.2) = calls (trace (trading LimitOrder))
  ∧ run.1 = Ok tt
  ∧ emitted (trace run.2)
    = emitted (trace (trading LimitOrder))
      ++ [mkOrderEvent 1%positive (Some EventType.CANCELED) None]
  ∧ heap (broker run.2) !! 1%positive
    = Some (with_state State.CANCELED (open_order LimitOrder)).
Proof.
  destruct (applyUpdate_rejected rt (trading LimitOrder) 1%positive (open_order LimitOrder)
              None) as [_ Hgone]; [discriminate | reflexivity |].
  exact (Hgone "7" 1%positive eq_refl eq_refl).
Defined.

(** An open limit order enters the book. *)
Lemma toBookMessages_delta_witness :
  ∃ cbt side price,
    open_message !! "type" = Some cbt
    ∧ open_message !! "side" = Some side
    ∧ open_message !! "price" = Some price
    ∧ known_type cbt = true
    ∧ bm_kind open_delta = (if eq_str cbt "open" then Increase else Decrease)
    ∧ side_of side = Some (bm_side open_delta)
    ∧ py_float rt price = Ok (bm_price open_delta).
Proof.
  apply (toBookMessages_delta rt (Decoded open_message) "BTCUSD" open_message open_delta);
    vm_compute; reflexivity.
Defined.
